(** * WorkMail organization resource: lifecycle and status polling

    A shallow embedding of [internal/service/workmail/organization.go]:
    the schema, the Create / Read / Delete handlers, the two waiters, the
    status function and the finder, together with the parts of the
    dependencies they call (the state-change poller of
    terraform-plugin-sdk's [helper/retry], the timeouts block of
    terraform-plugin-framework-timeouts, the RequiresReplace plan
    modifier and Go's error chains). *)

From Stdlib Require Import ZArith Lia Bool.
From stdpp Require Import base gmap strings list.

Open Scope string_scope.
Set Warnings "-register-all".

(** ** Go values the resource handles *)

(** [time.Duration]: a count of nanoseconds. *)
Abbreviation Duration := Z (only parsing).

Definition Second : Duration := 1000000000%Z.
Definition Minute : Duration := (60 * Second)%Z.

(** [workmail.DescribeOrganizationOutput]; pointer fields are options. *)
Record DescribeOrganizationOutput := {
  doARN : option string;
  doAlias : option string;
  doOrganizationId : option string;
  doState : option string;
}.

Record DescribeOrganizationInput := { diOrganizationId : option string }.

Record CreateOrganizationInput := {
  ciAlias : option string;
  ciClientToken : option string;
}.

Record CreateOrganizationOutput := { coOrganizationId : option string }.

Record DeleteOrganizationInput := {
  xiOrganizationId : option string;
  xiClientToken : option string;
}.

Record DeleteOrganizationOutput := {
  xoOrganizationId : option string;
  xoState : option string;
}.

(** The type the deletion waiter asserts its output to.  The source names
    it [workmail.Organization] and declares [awstypes.Organization] as
    the result type; only its distinctness from
    [DescribeOrganizationOutput] matters here. *)
Record Organization := { orgId : option string }.

(** [aws.ToString]: the empty string for a nil pointer. *)
Definition ToString (p : option string) : string := default "" p.

(** ** Errors

    The error values that reach the resource, with Go's wrapping: each
    constructor that carries an inner error exposes it to [errors.As]
    through [Unwrap]. *)
Inductive error :=
  | ResourceNotFoundException (msg : string)   (* awstypes, returned by the API *)
  | APIError (code msg : string)               (* any other service or transport error *)
  | ErrorsNew (msg : string)                   (* errors.New *)
  | EmptyResultError                           (* tfresource.NewEmptyResultError *)
  | NotFoundError (LastError : option error) (Retries : nat)      (* retry.NotFoundError *)
  | UnexpectedStateError (State : string) (ExpectedState : list string)
  | TimeoutError (LastError : option error) (LastState : string)
                 (Timeout : Duration) (ExpectedState : list string)
  | Smarterr (inner : error).                  (* smarterr.NewError's wrapper *)

(** [smarterr.NewError]: nil stays nil, anything else is wrapped. *)
Definition NewError (err : option error) : option error :=
  match err with
  | None => None
  | Some e => Some (Smarterr e)
  end.

(** [errs.IsA] at the type of [awstypes.ResourceNotFoundException]:
    [errors.As] along the chain. *)
Fixpoint IsResourceNotFoundException (e : error) : bool :=
  match e with
  | ResourceNotFoundException _ => true
  | Smarterr e' => IsResourceNotFoundException e'
  | NotFoundError (Some e') _ => IsResourceNotFoundException e'
  | TimeoutError (Some e') _ _ _ => IsResourceNotFoundException e'
  | _ => false
  end.

(** Whether the chain ends in a timeout of the poller. *)
Fixpoint IsTimeoutError (e : error) : bool :=
  match e with
  | TimeoutError _ _ _ _ => true
  | Smarterr e' => IsTimeoutError e'
  | NotFoundError (Some e') _ => IsTimeoutError e'
  | _ => false
  end.

(** Go's [any] as far as the waiters see it: nil, or a pointer of one of
    the two dynamic types the type assertions mention. *)
Inductive any :=
  | Nil
  | PtrDescribeOrganizationOutput (out : DescribeOrganizationOutput)
  | PtrOrganization (out : Organization).

Definition isNil (v : any) : bool :=
  match v with Nil => true | _ => false end.

(** The type assertion of [v] to a pointer to [workmail.DescribeOrganizationOutput]. *)
Definition assertDescribeOrganizationOutput (v : any) : option DescribeOrganizationOutput :=
  match v with PtrDescribeOrganizationOutput o => Some o | _ => None end.

(** The type assertion of [v] to a pointer to [workmail.Organization]. *)
Definition assertOrganization (v : any) : option Organization :=
  match v with PtrOrganization o => Some o | _ => None end.

(** ** The state-change poller

    [retry.StateChangeConf] and [WaitForStateContext] belong to
    terraform-plugin-sdk ([helper/retry/state.go]), a dependency whose
    source is not part of this repository.  The loop below follows that
    library's refresh loop statement by statement:
<<
    for {
      res, currentState, err := conf.Refresh()
      if err != nil { return res, err }
      if res == nil && len(conf.Target) == 0 {
        targetOccurence++
        if conf.ContinuousTargetOccurence == targetOccurence { return res, nil }
        continue
      }
      if res == nil {
        notfoundTick++
        if notfoundTick > conf.NotFoundChecks {
          return res, NotFoundError{Retries: notfoundTick}
        }
      } else {
        notfoundTick = 0
        found := false
        for _, allowed := range conf.Target {
          if currentState == allowed {
            found = true
            targetOccurence++
            if conf.ContinuousTargetOccurence == targetOccurence { return res, nil }
            continue
          }
        }
        for _, allowed := range conf.Pending {
          if currentState == allowed { found = true; targetOccurence = 0; break }
        }
        if !found && len(conf.Pending) > 0 {
          return res, UnexpectedStateError{State: currentState, ExpectedState: conf.Target}
        }
      }
    }
>>
    and, once the timeout has elapsed without a return, the wait gives
    nil and a TimeoutError with the last state seen, the timeout and the
    target.  Wall-clock time is abstracted: the loop is given the number
    of refreshes that complete before the timeout (and its grace period)
    cuts the wait off. *)
Module retry.

Record StateChangeConf := {
  Pending : list string;
  Target : list string;
  Timeout : Duration;
  NotFoundChecks : nat;
  ContinuousTargetOccurence : nat;
}.

(** What one call of [StateRefreshFunc] returns. *)
Definition RefreshResult : Type := any * string * option error.

(** The two counters of the loop. *)
Record Counters := { notfoundTick : nat; targetOccurence : nat }.

(** "Set a default for times to check for not found" *)
Definition notFoundChecks (conf : StateChangeConf) : nat :=
  if Nat.eqb (NotFoundChecks conf) 0 then 20 else NotFoundChecks conf.

Definition continuousTargetOccurence (conf : StateChangeConf) : nat :=
  if Nat.eqb (ContinuousTargetOccurence conf) 0 then 1
  else ContinuousTargetOccurence conf.

(** [for _, allowed := range conf.Target]: every match counts one
    occurrence, and the loop returns as soon as the count equals the
    required one.  Gives the count and whether it returned early. *)
Fixpoint scanTarget (required : nat) (currentState : string)
    (targets : list string) (found : bool) (occ : nat) : bool * nat * bool :=
  match targets with
  | [] => (found, occ, false)
  | allowed :: rest =>
      if String.eqb currentState allowed then
        if Nat.eqb required (S occ) then (true, S occ, true)
        else scanTarget required currentState rest true (S occ)
      else scanTarget required currentState rest found occ
  end.

(** [for _, allowed := range conf.Pending]: a match resets the
    occurrence count. *)
Definition scanPending (currentState : string) (pending : list string)
    (found : bool) (occ : nat) : bool * nat :=
  if existsb (String.eqb currentState) pending then (true, 0) else (found, occ).

(** One pass through the body of the refresh loop: either the loop goes
    round again with new counters, or the wait ends with a result. *)
Inductive Outcome :=
  | Continue (c : Counters)
  | Return (result : any) (err : option error).

Definition iteration (conf : StateChangeConf) (c : Counters)
    (r : RefreshResult) : Outcome :=
  let '(res, currentState, err) := r in
  match err with
  | Some _ => Return res err
  | None =>
    if isNil res && Nat.eqb (length (Target conf)) 0 then
      (* waiting for the absence of a thing *)
      let occ := S (targetOccurence c) in
      if Nat.eqb (continuousTargetOccurence conf) occ then Return res None
      else Continue {| notfoundTick := notfoundTick c; targetOccurence := occ |}
    else if isNil res then
      let tick := S (notfoundTick c) in
      if Nat.ltb (notFoundChecks conf) tick then
        Return res (Some (NotFoundError None tick))
      else Continue {| notfoundTick := tick; targetOccurence := targetOccurence c |}
    else
      let '(found, occ, done) :=
        scanTarget (continuousTargetOccurence conf) currentState
                   (Target conf) false (targetOccurence c) in
      if done then Return res None
      else
        let '(found, occ) := scanPending currentState (Pending conf) found occ in
        if negb found && negb (Nat.eqb (length (Pending conf)) 0) then
          Return res (Some (UnexpectedStateError currentState (Target conf)))
        else Continue {| notfoundTick := 0; targetOccurence := occ |}
  end.

(** The refresh loop from its [i]-th refresh on, with [budget]
    refreshes left before the timeout.  [lastState] is the state of the
    result the loop stored last.  Besides the wait's two results the
    number of refreshes made is returned. *)
Fixpoint refreshLoop (conf : StateChangeConf) (Refresh : nat -> RefreshResult)
    (budget : nat) (i : nat) (c : Counters) (lastState : string)
    : any * option error * nat :=
  match budget with
  | 0 => (Nil, Some (TimeoutError None lastState (Timeout conf) (Target conf)), i)
  | S budget' =>
      match iteration conf c (Refresh i) with
      | Return res err => (res, err, S i)
      | Continue c' => refreshLoop conf Refresh budget' (S i) c' (Refresh i).1.2
      end
  end.

Definition start : Counters := {| notfoundTick := 0; targetOccurence := 0 |}.

Definition WaitForStateContext (conf : StateChangeConf)
    (Refresh : nat -> RefreshResult) (budget : nat) : any * option error * nat :=
  refreshLoop conf Refresh budget 0 start "".

(** The counters after [k] more passes that all went round again,
    starting at refresh [i] with counters [c]; [None] once a pass has
    ended the wait. *)
Fixpoint after (conf : StateChangeConf) (Refresh : nat -> RefreshResult)
    (k : nat) (i : nat) (c : Counters) : option Counters :=
  match k with
  | 0 => Some c
  | S k' =>
      match iteration conf c (Refresh i) with
      | Continue c' => after conf Refresh k' (S i) c'
      | Return _ _ => None
      end
  end.

(** The wait is still polling after its first [k] refreshes. *)
Definition polling (conf : StateChangeConf) (Refresh : nat -> RefreshResult)
    (k : nat) : option Counters :=
  after conf Refresh k 0 start.

End retry.

(** ** The plugin framework's values *)

(** [types.String] *)
Inductive tfString :=
  | StringNull
  | StringUnknown
  | StringValue (s : string).

(** [ValueString]: the empty string when null or unknown. *)
Definition ValueString (v : tfString) : string :=
  match v with StringValue s => s | _ => "" end.

(** [ValueStringPointer]: nil when null. *)
Definition ValueStringPointer (v : tfString) : option string :=
  match v with
  | StringNull => None
  | StringUnknown => Some ""
  | StringValue s => Some s
  end.

Definition quote : string := String (Ascii.ascii_of_nat 34) EmptyString.

(** [String]: the value as the diagnostics print it. *)
Definition tfString_String (v : tfString) : string :=
  match v with
  | StringNull => "<null>"
  | StringUnknown => "<unknown>"
  | StringValue s => quote ++ s ++ quote
  end.

#[global] Instance tfString_eq_dec : EqDecision tfString.
Proof. solve_decision. Defined.

(** [Equal] *)
Definition tfString_eqb (a b : tfString) : bool :=
  match a, b with
  | StringNull, StringNull => true
  | StringUnknown, StringUnknown => true
  | StringValue x, StringValue y => String.eqb x y
  | _, _ => false
  end.

(** Diagnostics: errors fail the operation, warnings do not. *)
Inductive Diagnostic :=
  | ErrorDiagnostic (err : error) (id : string)
  | WarningDiagnostic (summary : string) (err : error).

Definition isError (d : Diagnostic) : bool :=
  match d with ErrorDiagnostic _ _ => true | WarningDiagnostic _ _ => false end.

Definition HasError (ds : list Diagnostic) : bool := existsb isError ds.

(** ** Schema attributes *)

Inductive PlanModifier :=
  | RequiresReplace
  | UseStateForUnknown.

Inductive Attribute :=
  | StringAttribute (Required Optional Computed : bool)
                    (PlanModifiers : list PlanModifier)
  | SingleNestedAttribute (Attributes : gmap string Attribute) (Optional : bool).

(** ** The timeouts block (terraform-plugin-framework-timeouts) *)
Module timeouts.

Record Opts := { Create : bool; Read : bool; Update : bool; Delete : bool }.

(** [timeouts.Value]: the object holding the block's attributes. *)
Abbreviation Value := (gmap string tfString) (only parsing).

(** [attributesMap]: one optional string attribute per enabled phase. *)
Definition attributesMap (opts : Opts) : gmap string Attribute :=
  let attribute := StringAttribute false true false [] in
  let attributes := ∅ in
  let attributes := if Create opts then <["create" := attribute]> attributes else attributes in
  let attributes := if Read opts then <["read" := attribute]> attributes else attributes in
  let attributes := if Update opts then <["update" := attribute]> attributes else attributes in
  let attributes := if Delete opts then <["delete" := attribute]> attributes else attributes in
  attributes.

(** [Value.Create], [Value.Delete], ...: the phase's attribute parsed
    as a duration; the default when the object has no such attribute or
    it is null or unknown; [None] when the text does not parse (the
    library reports an error diagnostic). *)
Definition getTimeout (ParseDuration : string -> option Duration)
    (v : gmap string tfString) (phase : string) (defaultTimeout : Duration)
    : option Duration :=
  match v !! phase with
  | None => Some defaultTimeout
  | Some StringNull | Some StringUnknown => Some defaultTimeout
  | Some (StringValue s) => ParseDuration s
  end.

(** [timeouts.Attributes]: an optional nested object with the enabled
    phases as its attributes. *)
Definition Attributes (opts : Opts) : Attribute :=
  SingleNestedAttribute (attributesMap opts) true.

End timeouts.

(** ** The schema *)

(** Modelled from the spec: [framework.ARNAttributeComputedOnly] and
    [framework.IDAttribute] are declared in internal/framework, which is
    not among the sources; the spec lists [arn] and [id] as computed
    fields. *)
Definition ARNAttributeComputedOnly : Attribute :=
  StringAttribute false false true [].

Definition IDAttribute : Attribute :=
  StringAttribute false false true [].

(** [resourceOrganization.Schema] *)
Definition Schema : gmap string Attribute :=
  {[ "arn" := ARNAttributeComputedOnly;
     "description" := StringAttribute false true false [];
     "id" := IDAttribute;
     "alias" := StringAttribute true false false [RequiresReplace];
     "timeouts" := timeouts.Attributes
        {| timeouts.Create := true; timeouts.Read := false;
           timeouts.Update := false; timeouts.Delete := false |} ]}.

(** [resourceOrganizationModel] *)
Record resourceOrganizationModel := {
  ARN : tfString;
  Description : tfString;
  ID : tfString;
  Alias : tfString;
  Timeouts : timeouts.Value;
}.

(** The model's attribute under its [tfsdk] tag. *)
Definition attributeValue (m : resourceOrganizationModel) (name : string)
    : option tfString :=
  if String.eqb name "arn" then Some (ARN m)
  else if String.eqb name "description" then Some (Description m)
  else if String.eqb name "id" then Some (ID m)
  else if String.eqb name "alias" then Some (Alias m)
  else None.

(** What the host accepts in a [timeouts] block of a configuration: an
    argument the schema's nested object does not declare is refused as
    unsupported. *)
Definition timeoutsAccepted (schema : gmap string Attribute)
    (block : gmap string tfString) : bool :=
  match schema !! "timeouts" with
  | Some (SingleNestedAttribute attrs _) =>
      bool_decide (dom block ⊆ dom attrs)
  | _ => bool_decide (block = ∅)
  end.

(** [stringplanmodifier.RequiresReplace] on one attribute: no replacement
    on creation (null prior state) or destruction (null plan), nor when
    the planned value equals the prior one. *)
Definition planModifyString (pm : PlanModifier)
    (prior planned : option resourceOrganizationModel) (name : string) : bool :=
  match pm, prior, planned with
  | RequiresReplace, Some s, Some p =>
      match attributeValue s name, attributeValue p name with
      | Some vs, Some vp => negb (tfString_eqb vp vs)
      | _, _ => false
      end
  | _, _, _ => false
  end.

(** The attributes whose plan modifiers ask for replacement. *)
Definition requiresReplace (schema : gmap string Attribute)
    (prior planned : option resourceOrganizationModel) : list string :=
  omap (fun '(name, a) =>
          match a with
          | StringAttribute _ _ _ pms =>
              if existsb (fun pm => planModifyString pm prior planned name) pms
              then Some name else None
          | SingleNestedAttribute _ _ => None
          end)
       (map_to_list schema).

(** What the host does with a planned change of an existing resource. *)
Inductive PlannedAction :=
  | ActionCreate
  | ActionDelete
  | ActionNoOp
  | ActionUpdateInPlace
  | ActionDeleteThenCreate.

Definition model_eqb (a b : resourceOrganizationModel) : bool :=
  tfString_eqb (ARN a) (ARN b) && tfString_eqb (Description a) (Description b)
  && tfString_eqb (ID a) (ID b) && tfString_eqb (Alias a) (Alias b)
  && bool_decide (Timeouts a = Timeouts b).

Definition plannedAction (schema : gmap string Attribute)
    (prior planned : option resourceOrganizationModel) : PlannedAction :=
  match prior, planned with
  | None, None => ActionNoOp
  | None, Some _ => ActionCreate
  | Some _, None => ActionDelete
  | Some s, Some p =>
      match requiresReplace schema prior planned with
      | _ :: _ => ActionDeleteThenCreate
      | [] => if model_eqb s p then ActionNoOp else ActionUpdateInPlace
      end
  end.

(** ** The remote client *)

(** [workmail.Client].  Each call gives the output pointer and the error
    as the SDK returns them.  DescribeOrganization is asked repeatedly
    while an operation waits, so its answer depends on how many earlier
    calls the operation has made. *)
Record Client := {
  CreateOrganization :
    CreateOrganizationInput -> option CreateOrganizationOutput * option error;
  DescribeOrganization :
    nat -> DescribeOrganizationInput -> option DescribeOrganizationOutput * option error;
  DeleteOrganization :
    DeleteOrganizationInput -> option DeleteOrganizationOutput * option error;
}.

(** The remote calls an operation makes, in order. *)
Inductive Call :=
  | CallCreateOrganization (input : CreateOrganizationInput)
  | CallDescribeOrganization (input : DescribeOrganizationInput)
  | CallDeleteOrganization (input : DeleteOrganizationInput).

(** [tfsdk.Plan] and [tfsdk.State] of a request: what [Get] decodes. *)
Record tfsdkData := { Get : list Diagnostic * resourceOrganizationModel }.

Record CreateRequest := { crPlan : tfsdkData }.
Record ReadRequest := { rrState : tfsdkData }.
Record DeleteRequest := { drState : tfsdkData }.

(** A response: the diagnostics and the state handed back to the host;
    [None] is the null state of a resource that does not exist. *)
Record Response := {
  Diagnostics : list Diagnostic;
  State : option resourceOrganizationModel;
}.

(** [resourceOrganization] with the defaults of [framework.WithTimeouts]. *)
Record resourceOrganization := {
  defaultCreateTimeout : Duration;
  defaultUpdateTimeout : Duration;
  defaultDeleteTimeout : Duration;
}.

Definition newResourceOrganization : resourceOrganization :=
  {| defaultCreateTimeout := (10 * Minute)%Z;
     defaultUpdateTimeout := (10 * Minute)%Z;
     defaultDeleteTimeout := (10 * Minute)%Z |}.

Definition statusCreating : string := "Creating".
Definition statusDeleting : string := "Deleting".
Definition statusActive : string := "Active".
Definition statusDeleted : string := "Deleted".

(** The waiters' configurations of the poller; [NotFoundChecks] and
    [ContinuousTargetOccurence] are left at zero by the deletion waiter. *)
Definition createdStateConf (timeout : Duration) : retry.StateChangeConf :=
  {| retry.Pending := [statusCreating];
     retry.Target := [statusActive];
     retry.Timeout := timeout;
     retry.NotFoundChecks := 20;
     retry.ContinuousTargetOccurence := 2 |}.

Definition deletedStateConf (timeout : Duration) : retry.StateChangeConf :=
  {| retry.Pending := [statusDeleting; statusActive];
     retry.Target := [statusDeleted];
     retry.Timeout := timeout;
     retry.NotFoundChecks := 0;
     retry.ContinuousTargetOccurence := 0 |}.

(** ** Concrete collaborators and remotes

    A clock, a duration parser, flatteners and a few scripted remotes,
    used to run the operations on explicit inputs. *)
Module Scenario.

(** One refresh every ten seconds, the poller's steady interval. *)
Definition clock (d : Duration) : nat := Z.to_nat (d / (10 * Second)).

Definition parseDuration (s : string) : option Duration :=
  if String.eqb s "30s" then Some (30 * Second)%Z
  else if String.eqb s "5m" then Some (5 * Minute)%Z
  else if String.eqb s "20m" then Some (20 * Minute)%Z
  else None.

Definition uniqueId : string := "terraform-20261102000000000001".

(** The error taxonomy's reading of an empty result: fatal. *)
Definition emptyResultAsNotFound : bool := false.

Definition expand (m : resourceOrganizationModel)
    : list Diagnostic * CreateOrganizationInput :=
  ([], {| ciAlias := ValueStringPointer (Alias m); ciClientToken := None |}).

Definition flattenCreate (out : CreateOrganizationOutput)
    (m : resourceOrganizationModel) : list Diagnostic * resourceOrganizationModel :=
  ([], {| ARN := ARN m; Description := Description m;
          ID := StringValue (ToString (coOrganizationId out));
          Alias := Alias m; Timeouts := Timeouts m |}).

Definition flattenDescribe (out : DescribeOrganizationOutput)
    (m : resourceOrganizationModel) : list Diagnostic * resourceOrganizationModel :=
  ([], {| ARN := StringValue (ToString (doARN out)); Description := Description m;
          ID := StringValue (ToString (doOrganizationId out));
          Alias := StringValue (ToString (doAlias out)); Timeouts := Timeouts m |}).

Definition setDiagnostics (m : resourceOrganizationModel) : list Diagnostic := [].

Definition orgId : string := "m-d281d0a2fd824be5b6cd3d3ce909fd27".

Definition described (st : string) : DescribeOrganizationOutput :=
  {| doARN := Some "arn:aws:workmail:us-east-1:123456789012:organization/m-d281";
     doAlias := Some "example";
     doOrganizationId := Some orgId;
     doState := Some st |}.

Definition observed (st : string)
    : option DescribeOrganizationOutput * option error :=
  (Some (described st), None).

Definition absent : option DescribeOrganizationOutput * option error :=
  (None, Some (ResourceNotFoundException "organization not found")).

(** A remote whose describe answers follow [script]. *)
Definition remote (script : nat -> option DescribeOrganizationOutput * option error)
    : Client :=
  {| CreateOrganization := fun _ => (Some {| coOrganizationId := Some orgId |}, None);
     DescribeOrganization := fun n _ => script n;
     DeleteOrganization := fun _ =>
       (Some {| xoOrganizationId := Some orgId; xoState := Some statusDeleting |}, None) |}.

(** Active, then not found once, then Active again. *)
Definition flicker : Client :=
  remote (fun n => if Nat.eqb n 1 then absent else observed statusActive).

(** Creating, one Active, Creating again, then Active for good. *)
Definition transient : Client :=
  remote (fun n => if Nat.eqb n 1 then observed statusActive
                   else if Nat.ltb n 3 then observed statusCreating
                   else observed statusActive).

(** The organization never leaves Creating. *)
Definition stuck : Client := remote (fun _ => observed statusCreating).

(** The organization is gone: every describe reports not found. *)
Definition gone : Client := remote (fun _ => absent).

(** Deleting twice, then Deleted. *)
Definition deleting : Client :=
  remote (fun n => if Nat.ltb n 2 then observed statusDeleting
                   else observed statusDeleted).

(** The second describe fails with a throttling error. *)
Definition throttled : Client :=
  remote (fun n => if Nat.eqb n 1 then (None, Some (APIError "ThrottlingException" "rate exceeded"))
                   else observed statusCreating).

(** The same while the organization is being deleted. *)
Definition throttledDeleting : Client :=
  remote (fun n => if Nat.eqb n 1 then (None, Some (APIError "ThrottlingException" "rate exceeded"))
                   else observed statusDeleting).

Definition absent_delete : option DeleteOrganizationOutput * option error :=
  (None, Some (ResourceNotFoundException "organization not found")).

(** Deleting an organization the remote does not know. *)
Definition unknown : Client :=
  {| CreateOrganization := fun _ => (None, Some (APIError "InvalidParameterException" ""));
     DescribeOrganization := fun _ _ => absent;
     DeleteOrganization := fun _ => absent_delete |}.

Definition model (alias : string) (block : gmap string tfString)
    : resourceOrganizationModel :=
  {| ARN := StringUnknown; Description := StringValue "some description";
     ID := StringUnknown; Alias := StringValue alias; Timeouts := block |}.

Definition managed (alias : string) : resourceOrganizationModel :=
  {| ARN := StringValue "arn:aws:workmail:us-east-1:123456789012:organization/m-d281";
     Description := StringValue "some description";
     ID := StringValue orgId; Alias := StringValue alias; Timeouts := ∅ |}.

Definition empty : Response := {| Diagnostics := []; State := None |}.

End Scenario.

(** ** Import *)




(** ** The sweeper *)

Record OrganizationSummary := {
  osAlias : option string;
  osOrganizationId : option string;
  osState : option string;
}.

Record ListOrganizationsInput := { liNextToken : option string }.

Record ListOrganizationsOutput := {
  loNextToken : option string;
  loOrganizationSummaries : list OrganizationSummary;
}.

(** The ListOrganizations call of the client: a page or an error. *)
Abbreviation ListOrganizationsAPI :=
  (ListOrganizationsInput -> ListOrganizationsOutput + error) (only parsing).

(** What [sweepfw.NewSweepResource] is given: the resource factory and
    the attributes that identify the resource to sweep. *)
Record SweepResource := {
  srFactory : resourceOrganization;
  srAttributes : list (string * string);
}.

Definition NewSweepResource (v : OrganizationSummary) : SweepResource :=
  {| srFactory := newResourceOrganization;
     srAttributes := [("id", ToString (osOrganizationId v))] |}.

(** [ListOrganizationsPaginator.HasMorePages]: the first page, or a
    next token that is neither nil nor empty. *)
Definition HasMorePages (firstPage : bool) (nextToken : option string) : bool :=
  firstPage ||
  match nextToken with
  | Some t => negb (String.eqb t "")
  | None => false
  end.

(** The loop of [sweepOrganizations] over the paginator, with the
    paginator's two fields and the resources gathered so far.  A remote
    may hand out next tokens for ever, so the loop is given a number of
    pages it may still fetch; [None] when that runs out. *)
Fixpoint sweepPages (api : ListOrganizationsAPI) (fuel : nat)
    (firstPage : bool) (nextToken : option string)
    (sweepResources : list SweepResource)
    : option (list SweepResource * option error) :=
  if HasMorePages firstPage nextToken then
    match fuel with
    | 0 => None
    | S fuel' =>
        match api {| liNextToken := nextToken |} with
        | inr err => Some ([], NewError (Some err))
        | inl page =>
            sweepPages api fuel' false (loNextToken page)
              (sweepResources ++ map NewSweepResource (loOrganizationSummaries page))%list
        end
    end
  else Some (sweepResources, None).

(** [sweepOrganizations] *)
Definition sweepOrganizations (api : ListOrganizationsAPI) (fuel : nat)
    : option (list SweepResource * option error) :=
  sweepPages api fuel true None [].

(** The remote serves the pages [pages] one after the other when asked
    with [nextToken] first, and the last of them ends the listing. *)
Fixpoint serves (api : ListOrganizationsAPI) (nextToken : option string)
    (pages : list ListOrganizationsOutput) : Prop :=
  match pages with
  | [] => False
  | page :: rest =>
      api {| liNextToken := nextToken |} = inl page /\
      match rest with
      | [] => HasMorePages false (loNextToken page) = false
      | _ :: _ =>
          HasMorePages false (loNextToken page) = true /\
          serves api (loNextToken page) rest
      end
  end.

(** ** The acceptance tests' checks *)

(** A resource of the test's state: its type and its primary id. *)
Record ResourceState := { rsType : string; rsPrimaryID : string }.

(** The actions [create.Error] is called with. *)
Inductive ErrAction :=
  | ErrActionCheckingDestroyed
  | ErrActionCheckingExistence
  | ErrActionCheckingNotRecreated.

(** The outcome of a check: nil, or the error [create.Error] builds from
    the action, the identifier and the cause. *)
Inductive CheckResult :=
  | CheckPassed
  | CheckError (action : ErrAction) (id : string) (cause : error).

(** More remotes and states to run the operations on. *)
Module Cases.

(** The status is one the waiters do not list. *)
Definition requested : Client :=
  Scenario.remote (fun n => if Nat.eqb n 0 then Scenario.observed statusCreating
                            else Scenario.observed "Requested").

(** Not found once, Creating, then Active. *)
Definition settling : Client :=
  Scenario.remote (fun n => if Nat.eqb n 0 then Scenario.absent
                            else if Nat.eqb n 1 then Scenario.observed statusCreating
                            else Scenario.observed statusActive).

(** The organization stays in Deleting. *)
Definition lingering : Client := Scenario.remote (fun _ => Scenario.observed statusDeleting).

(** CreateOrganization is refused. *)
Definition refusing : Client :=
  {| CreateOrganization := fun _ => (None, Some (APIError "LimitExceededException" "too many organizations"));
     DescribeOrganization := fun _ _ => Scenario.absent;
     DeleteOrganization := fun _ => (None, Some (APIError "OrganizationStateException" "not active")) |}.

(** CreateOrganization answers without an id. *)
Definition forgetful : Client :=
  {| CreateOrganization := fun _ => (Some {| coOrganizationId := None |}, None);
     DescribeOrganization := fun _ _ => Scenario.absent;
     DeleteOrganization := fun _ => (None, None) |}.

(** One organization is gone, another one still exists. *)
Definition halfSwept : Client :=
  {| CreateOrganization := fun _ => (None, None);
     DescribeOrganization := fun _ input =>
       if String.eqb (ToString (diOrganizationId input)) "m-gone" then Scenario.absent
       else Scenario.observed statusActive;
     DeleteOrganization := fun _ => (None, None) |}.

(** Every describe fails with a throttling error. *)
Definition unreachable : Client :=
  Scenario.remote (fun _ => (None, Some (APIError "ThrottlingException" "rate exceeded"))).

(** A test state with another resource first and two organizations. *)
Definition resources : list ResourceState :=
  [{| rsType := "aws_iam_role"; rsPrimaryID := "role" |};
   {| rsType := "aws_workmail_organization"; rsPrimaryID := "m-gone" |};
   {| rsType := "aws_workmail_organization"; rsPrimaryID := "m-live" |}].

Definition summary (id : string) : OrganizationSummary :=
  {| osAlias := Some "example"; osOrganizationId := Some id;
     osState := Some statusActive |}.

(** Two pages, the second reached through the token of the first. *)
Definition twoPages : ListOrganizationsAPI :=
  fun input =>
    match liNextToken input with
    | None => inl {| loNextToken := Some "page-2";
                     loOrganizationSummaries := [summary "m-1"; summary "m-2"] |}
    | Some _ => inl {| loNextToken := None;
                       loOrganizationSummaries :=
                         [{| osAlias := None; osOrganizationId := None; osState := None |}] |}
    end.


End Cases.

Section Resource.

(** Whether [tfresource.EmptyResultError] converts to a not-found error
    under [errors.As]; its declaration is outside the sources. *)
Variable emptyResultAsNotFound : bool.

(** The clock: how many refreshes of the poller complete within a
    timeout of the given length. *)
Variable pollsWithin : Duration -> nat.

(** [time.ParseDuration] *)
Variable ParseDuration : string -> option Duration.

(** [sdkid.UniqueId] *)
Variable UniqueId : string.

(** [flex.Expand] of the plan into the create input, [flex.Flatten] of
    the create and describe outputs into the model, and the diagnostics
    of [State.Set]. *)
Variable Expand :
  resourceOrganizationModel -> list Diagnostic * CreateOrganizationInput.
Variable FlattenCreate :
  CreateOrganizationOutput -> resourceOrganizationModel ->
  list Diagnostic * resourceOrganizationModel.
Variable FlattenDescribe :
  DescribeOrganizationOutput -> resourceOrganizationModel ->
  list Diagnostic * resourceOrganizationModel.
Variable SetDiagnostics : resourceOrganizationModel -> list Diagnostic.

(** Modelled from the spec: [tfresource.NotFound] is declared in
    internal/tfresource, which is not among the sources.  It recognises
    the NotFound class of the error taxonomy: a [retry.NotFoundError]
    anywhere in the chain. *)
Fixpoint NotFound (e : error) : bool :=
  match e with
  | NotFoundError _ _ => true
  | EmptyResultError => emptyResultAsNotFound
  | Smarterr e' => NotFound e'
  | TimeoutError (Some e') _ _ _ => NotFound e'
  | _ => false
  end.

(** Modelled from the spec: [smerr.AddError] and [smerr.EnrichAppend]
    are declared in internal/smerr, and the not-found warning in
    internal/errs/fwdiag, none among the sources.  Errors are surfaced
    with the resource's identity; appended diagnostics keep their
    severity. *)
Definition AddError (resp : Response) (err : error) (id : string) : Response :=
  {| Diagnostics := Diagnostics resp ++ [ErrorDiagnostic err id];
     State := State resp |}.

Definition EnrichAppend (resp : Response) (ds : list Diagnostic) : Response :=
  {| Diagnostics := Diagnostics resp ++ ds; State := State resp |}.

Definition NewResourceNotFoundWarningDiagnostic (err : error) : Diagnostic :=
  WarningDiagnostic "resource not found, removing from state" err.

(** [State.Set]: the value is stored unless converting it failed. *)
Definition StateSet (resp : Response) (m : resourceOrganizationModel) : Response :=
  let ds := SetDiagnostics m in
  {| Diagnostics := Diagnostics resp ++ ds;
     State := if HasError ds then State resp else Some m |}.

(** [State.RemoveResource] *)
Definition RemoveResource (resp : Response) : Response :=
  {| Diagnostics := Diagnostics resp; State := None |}.

(** Modelled from the spec: [framework.WithTimeouts] is declared in
    internal/framework, which is not among the sources.  The phase's
    configured timeout is used when the block gives one that parses,
    the resource's default otherwise. *)
Definition CreateTimeout (r : resourceOrganization)
    (v : gmap string tfString) : Duration :=
  default (defaultCreateTimeout r)
    (timeouts.getTimeout ParseDuration v "create" (defaultCreateTimeout r)).

Definition DeleteTimeout (r : resourceOrganization)
    (v : gmap string tfString) : Duration :=
  default (defaultDeleteTimeout r)
    (timeouts.getTimeout ParseDuration v "delete" (defaultDeleteTimeout r)).

(** [findOrganizationByID]: every return statement gives exactly one of
    the output and the error.  [n] numbers the call for the client. *)
Definition findOrganizationByID (conn : Client) (n : nat) (id : string)
    : DescribeOrganizationOutput + error :=
  let input := {| diOrganizationId := Some id |} in
  match DescribeOrganization conn n input with
  | (_, Some err) =>
      if IsResourceNotFoundException err then
        inr (Smarterr (NotFoundError (Some err) 0))
      else inr (Smarterr err)
  | (None, None) => inr (Smarterr EmptyResultError)
  | (Some out, None) =>
      match doOrganizationId out with
      | None => inr (Smarterr EmptyResultError)
      | Some _ => inl out
      end
  end.

(** [statusOrganization]: the refresh function of both waiters. *)
Definition statusOrganization (conn : Client) (id : string)
    : nat -> retry.RefreshResult :=
  fun n =>
    match findOrganizationByID conn n id with
    | inr err =>
        if NotFound err then (Nil, "", None)
        else (Nil, "", Some (Smarterr err))
    | inl out => (PtrDescribeOrganizationOutput out, ToString (doState out), None)
    end.

(** [waitOrganizationCreated]; the third component counts the polls. *)
Definition waitOrganizationCreated (conn : Client) (id : string)
    (timeout : Duration) : option DescribeOrganizationOutput * option error * nat :=
  let stateConf := createdStateConf timeout in
  let '(outputRaw, err, polls) :=
    retry.WaitForStateContext stateConf (statusOrganization conn id)
                              (pollsWithin timeout) in
  match assertDescribeOrganizationOutput outputRaw with
  | Some out => (Some out, NewError err, polls)
  | None => (None, NewError err, polls)
  end.

(** [waitOrganizationDeleted] *)
Definition waitOrganizationDeleted (conn : Client) (id : string)
    (timeout : Duration) : option Organization * option error * nat :=
  let stateConf := deletedStateConf timeout in
  let '(outputRaw, err, polls) :=
    retry.WaitForStateContext stateConf (statusOrganization conn id)
                              (pollsWithin timeout) in
  match assertOrganization outputRaw with
  | Some out => (Some out, NewError err, polls)
  | None => (None, NewError err, polls)
  end.

(** The describe calls of a wait that polled [polls] times. *)
Definition pollCalls (id : string) (polls : nat) : list Call :=
  replicate polls (CallDescribeOrganization {| diOrganizationId := Some id |}).

(** [resourceOrganization.Create] *)
Definition Create (r : resourceOrganization) (conn : Client)
    (req : CreateRequest) (resp : Response) : Response * list Call :=
  let '(ds, plan) := Get (crPlan req) in
  let resp := EnrichAppend resp ds in
  if HasError (Diagnostics resp) then (resp, []) else
  let '(ds, input) := Expand plan in
  let resp := EnrichAppend resp ds in
  if HasError (Diagnostics resp) then (resp, []) else
  let input := {| ciAlias := ciAlias input; ciClientToken := Some UniqueId |} in
  let calls := [CallCreateOrganization input] in
  match CreateOrganization conn input with
  | (_, Some err) => (AddError resp err (tfString_String (Alias plan)), calls)
  | (None, None) =>
      (AddError resp (ErrorsNew "empty output") (tfString_String (Alias plan)), calls)
  | (Some out, None) =>
      match coOrganizationId out with
      | None =>
          (AddError resp (ErrorsNew "empty output") (tfString_String (Alias plan)),
           calls)
      | Some _ =>
          let '(ds, plan) := FlattenCreate out plan in
          let resp := EnrichAppend resp ds in
          if HasError (Diagnostics resp) then (resp, calls) else
          let createTimeout := CreateTimeout r (Timeouts plan) in
          let id := ValueString (ID plan) in
          let '(_, err, polls) := waitOrganizationCreated conn id createTimeout in
          let calls := (calls ++ pollCalls id polls)%list in
          match err with
          | Some err => (AddError resp err (tfString_String (Alias plan)), calls)
          | None => (StateSet resp plan, calls)
          end
      end
  end.

(** [resourceOrganization.Read] *)
Definition Read (r : resourceOrganization) (conn : Client)
    (req : ReadRequest) (resp : Response) : Response * list Call :=
  let '(ds, state) := Get (rrState req) in
  let resp := EnrichAppend resp ds in
  if HasError (Diagnostics resp) then (resp, []) else
  let id := ValueString (ID state) in
  let calls := pollCalls id 1 in
  match findOrganizationByID conn 0 id with
  | inr err =>
      if NotFound err then
        (RemoveResource
           (EnrichAppend resp [NewResourceNotFoundWarningDiagnostic err]), calls)
      else (AddError resp err (tfString_String (ID state)), calls)
  | inl out =>
      let '(ds, state) := FlattenDescribe out state in
      let resp := EnrichAppend resp ds in
      if HasError (Diagnostics resp) then (resp, calls) else
      (StateSet resp state, calls)
  end.

(** [resourceOrganization.Delete] *)
Definition Delete (r : resourceOrganization) (conn : Client)
    (req : DeleteRequest) (resp : Response) : Response * list Call :=
  let '(ds, state) := Get (drState req) in
  let resp := EnrichAppend resp ds in
  if HasError (Diagnostics resp) then (resp, []) else
  let input := {| xiOrganizationId := ValueStringPointer (ID state);
                  xiClientToken := Some UniqueId |} in
  let calls := [CallDeleteOrganization input] in
  match DeleteOrganization conn input with
  | (_, Some err) =>
      if IsResourceNotFoundException err then (resp, calls)
      else (AddError resp err (tfString_String (ID state)), calls)
  | (_, None) =>
      let deleteTimeout := DeleteTimeout r (Timeouts state) in
      let id := ValueString (ID state) in
      let '(_, err, polls) := waitOrganizationDeleted conn id deleteTimeout in
      let calls := (calls ++ pollCalls id polls)%list in
      match err with
      | Some err => (AddError resp err (tfString_String (ID state)), calls)
      | None => (resp, calls)
      end
  end.

(** What a poll of the waiters observes at the [n]-th describe call:
    the organization in state [st], or a not-found report. *)
Definition observes (conn : Client) (id : string) (n : nat) (st : string) : Prop :=
  exists out, findOrganizationByID conn n id = inl out /\ ToString (doState out) = st.

Definition reportsNotFound (conn : Client) (id : string) (n : nat) : Prop :=
  exists err, findOrganizationByID conn n id = inr err /\ NotFound err = true.

(** An execution of Create that gets as far as the wait: the plan
    decodes and expands, the remote assigns an id, the output flattens
    into [plan'], and no error has been recorded in [resp']. *)
Definition createReachesWait (conn : Client) (req : CreateRequest)
    (resp : Response) (plan' : resourceOrganizationModel) (resp' : Response) : Prop :=
  exists ds1 plan ds2 input out ds3,
    Get (crPlan req) = (ds1, plan) /\
    Expand plan = (ds2, input) /\
    CreateOrganization conn
      {| ciAlias := ciAlias input; ciClientToken := Some UniqueId |} = (Some out, None) /\
    is_Some (coOrganizationId out) /\
    FlattenCreate out plan = (ds3, plan') /\
    resp' = EnrichAppend (EnrichAppend (EnrichAppend resp ds1) ds2) ds3 /\
    HasError (Diagnostics resp') = false.

(** [testAccCheckOrganizationDestroy], over the resources in the order
    the range visits them. *)
Fixpoint testAccCheckOrganizationDestroy (conn : Client)
    (resources : list ResourceState) : CheckResult :=
  match resources with
  | [] => CheckPassed
  | rs :: rest =>
      if negb (String.eqb (rsType rs) "aws_workmail_organization") then
        testAccCheckOrganizationDestroy conn rest
      else
        match findOrganizationByID conn 0 (rsPrimaryID rs) with
        | inr err =>
            if NotFound err then CheckPassed
            else CheckError ErrActionCheckingDestroyed (rsPrimaryID rs) err
        | inl _ =>
            CheckError ErrActionCheckingDestroyed (rsPrimaryID rs)
                       (ErrorsNew "not destroyed")
        end
  end.


(** [testAccCheckOrganizationNotRecreated] *)
Definition testAccCheckOrganizationNotRecreated
    (before after : DescribeOrganizationOutput) : CheckResult :=
  let beforeStr := ToString (doOrganizationId before) in
  let afterStr := ToString (doOrganizationId after) in
  if negb (String.eqb beforeStr afterStr) then
    CheckError ErrActionCheckingNotRecreated beforeStr (ErrorsNew "recreated")
  else CheckPassed.

(** ** The refresh loop *)

Section Loop.

Variable conf : retry.StateChangeConf.
Variable Refresh : nat -> retry.RefreshResult.

Lemma after_add k m i c :
  retry.after conf Refresh (k + m) i c =
  match retry.after conf Refresh k i c with
  | Some c' => retry.after conf Refresh m (i + k) c'
  | None => None
  end.
Proof.
  revert i c. induction k as [|k IH]; intros i c; simpl.
  - by rewrite Nat.add_0_r.
  - destruct (retry.iteration conf c (Refresh i)); [|done].
    rewrite IH. by replace (S i + k) with (i + S k) by lia.
Qed.

Lemma after_S k i c :
  retry.after conf Refresh (S k) i c =
  match retry.after conf Refresh k i c with
  | Some c' =>
      match retry.iteration conf c' (Refresh (i + k)) with
      | retry.Continue c'' => Some c''
      | retry.Return _ _ => None
      end
  | None => None
  end.
Proof.
  replace (S k) with (k + 1) by lia. rewrite after_add.
  destruct (retry.after conf Refresh k i c); [|done]. simpl.
  by destruct (retry.iteration conf c0 (Refresh (i + k))).
Qed.

(** A pass that returns ends the wait with its result, one refresh
    after the passes before it. *)
Lemma refreshLoop_return k budget i c c' lastState res err :
  retry.after conf Refresh k i c = Some c' ->
  k < budget ->
  retry.iteration conf c' (Refresh (i + k)) = retry.Return res err ->
  retry.refreshLoop conf Refresh budget i c lastState = (res, err, S (i + k)).
Proof.
  revert budget i c lastState.
  induction k as [|k IH]; intros budget i c lastState Hafter Hlt Hit;
    (destruct budget as [|budget]; [lia|]); simpl in *.
  - injection Hafter as ->. rewrite Nat.add_0_r in *. by rewrite Hit.
  - destruct (retry.iteration conf c (Refresh i)) as [c1|]; [|done].
    replace (i + S k) with (S i + k) in * by lia.
    apply IH; [done | lia | done].
Qed.

(** When every pass within the budget goes round again, the wait
    ends in a timeout after exactly [budget] refreshes. *)
Lemma refreshLoop_timeout budget i c c' lastState :
  retry.after conf Refresh budget i c = Some c' ->
  exists ls,
    retry.refreshLoop conf Refresh budget i c lastState =
    (Nil, Some (TimeoutError None ls (retry.Timeout conf) (retry.Target conf)),
     i + budget).
Proof.
  revert i c lastState.
  induction budget as [|budget IH]; intros i c lastState Hafter; simpl in *.
  - exists lastState. by rewrite Nat.add_0_r.
  - destruct (retry.iteration conf c (Refresh i)) as [c1|]; [|done].
    destruct (IH (S i) c1 (Refresh i).1.2 Hafter) as [ls Hls].
    exists ls. rewrite Hls. by replace (S i + budget) with (i + S budget) by lia.
Qed.

(** Every run of the loop is one of the two. *)
Lemma refreshLoop_cases budget i c lastState res err polls :
  retry.refreshLoop conf Refresh budget i c lastState = (res, err, polls) ->
  (exists c' ls,
      retry.after conf Refresh budget i c = Some c' /\ res = Nil /\
      err = Some (TimeoutError None ls (retry.Timeout conf) (retry.Target conf)) /\
      polls = i + budget) \/
  (exists k c',
      k < budget /\ retry.after conf Refresh k i c = Some c' /\
      retry.iteration conf c' (Refresh (i + k)) = retry.Return res err /\
      polls = S (i + k)).
Proof.
  revert i c lastState.
  induction budget as [|budget IH]; intros i c lastState Hrun; simpl in *.
  - injection Hrun as <- <- <-. left. exists c, lastState.
    by rewrite Nat.add_0_r.
  - destruct (retry.iteration conf c (Refresh i)) as [c1|res1 err1] eqn:Hit.
    + destruct (IH _ _ _ Hrun) as [(c' & ls & Ha & -> & -> & ->)
                                   |(k & c' & Hk & Ha & Hret & ->)].
      * left. exists c', ls. repeat split; [done | lia].
      * right. exists (S k), c'. simpl. rewrite Hit.
        replace (i + S k) with (S i + k) by lia.
        repeat split; [lia | done | done].
    + injection Hrun as <- <- <-. right. exists 0, c.
      rewrite Nat.add_0_r. repeat split; [lia | done].
Qed.

(** The value a returning pass hands back is the one the refresh
    function produced. *)
Lemma iteration_result c r res err :
  retry.iteration conf c r = retry.Return res err -> res = r.1.1.
Proof.
  destruct r as [[res0 st] e]. unfold retry.iteration. simpl.
  destruct e; [by intros [= <- _]|].
  repeat match goal with
         | |- context [if ?b then _ else _] => destruct b
         | |- context [let '(_, _) := ?p in _] => destruct p
         end; by intros [= <- _].
Qed.

End Loop.

(** ** The status function *)

Lemma statusOrganization_found conn id n out :
  findOrganizationByID conn n id = inl out ->
  statusOrganization conn id n =
  (PtrDescribeOrganizationOutput out, ToString (doState out), None).
Proof. unfold statusOrganization. by intros ->. Qed.

Lemma statusOrganization_notfound conn id n err :
  findOrganizationByID conn n id = inr err -> NotFound err = true ->
  statusOrganization conn id n = (Nil, "", None).
Proof. unfold statusOrganization. by intros -> ->. Qed.

Lemma statusOrganization_fatal conn id n err :
  findOrganizationByID conn n id = inr err -> NotFound err = false ->
  statusOrganization conn id n = (Nil, "", Some (Smarterr err)).
Proof. unfold statusOrganization. by intros -> ->. Qed.

Lemma statusOrganization_cases conn id n :
  (exists out, findOrganizationByID conn n id = inl out) \/
  reportsNotFound conn id n \/
  (exists err, findOrganizationByID conn n id = inr err /\ NotFound err = false).
Proof.
  unfold reportsNotFound.
  destruct (findOrganizationByID conn n id) as [out|err]; [eauto|].
  destruct (NotFound err) eqn:?; eauto.
Qed.

Lemma observes_functional conn id n st st' :
  observes conn id n st -> observes conn id n st' -> st = st'.
Proof. intros (o & Ho & <-) (o' & Ho' & <-). congruence. Qed.

Lemma observes_not_reportsNotFound conn id n st :
  observes conn id n st -> reportsNotFound conn id n -> False.
Proof. intros (o & Ho & _) (e & He & _). congruence. Qed.

(** The value a wait hands back is nil or what a describe returned. *)
Lemma WaitForStateContext_result conf conn id budget res err polls :
  retry.WaitForStateContext conf (statusOrganization conn id) budget
    = (res, err, polls) ->
  res = Nil \/ exists out, res = PtrDescribeOrganizationOutput out.
Proof.
  intros Hrun. apply refreshLoop_cases in Hrun
    as [(c' & ls & _ & -> & _)|(k & c' & _ & _ & Hret & _)]; [by left|].
  apply iteration_result in Hret as ->. simpl.
  destruct (statusOrganization_cases conn id k)
    as [(o & Ho)|[(e & He & Hn)|(e & He & Hn)]].
  - rewrite (statusOrganization_found _ _ _ _ Ho). eauto.
  - rewrite (statusOrganization_notfound _ _ _ _ He Hn). eauto.
  - rewrite (statusOrganization_fatal _ _ _ _ He Hn). eauto.
Qed.

(** ** One pass of the creation wait and of the deletion wait *)

Lemma created_notfound timeout c st :
  retry.iteration (createdStateConf timeout) c (Nil, st, None) =
  if Nat.ltb 20 (S (retry.notfoundTick c))
  then retry.Return Nil (Some (NotFoundError None (S (retry.notfoundTick c))))
  else retry.Continue {| retry.notfoundTick := S (retry.notfoundTick c);
                         retry.targetOccurence := retry.targetOccurence c |}.
Proof. done. Qed.

Lemma created_found timeout c out st :
  retry.iteration (createdStateConf timeout) c
                  (PtrDescribeOrganizationOutput out, st, None) =
  if String.eqb st statusActive then
    if Nat.eqb 2 (S (retry.targetOccurence c))
    then retry.Return (PtrDescribeOrganizationOutput out) None
    else retry.Continue {| retry.notfoundTick := 0;
                           retry.targetOccurence := S (retry.targetOccurence c) |}
  else if String.eqb st statusCreating then
    retry.Continue {| retry.notfoundTick := 0; retry.targetOccurence := 0 |}
  else retry.Return (PtrDescribeOrganizationOutput out)
                    (Some (UnexpectedStateError st [statusActive])).
Proof.
  unfold retry.iteration, retry.scanPending. simpl.
  destruct (String.eqb st statusActive) eqn:Hact.
  - apply String.eqb_eq in Hact as ->.
    by destruct (retry.targetOccurence c) as [|[|?]].
  - by destruct (String.eqb st statusCreating).
Qed.

Lemma deleted_notfound timeout c st :
  retry.iteration (deletedStateConf timeout) c (Nil, st, None) =
  if Nat.ltb 20 (S (retry.notfoundTick c))
  then retry.Return Nil (Some (NotFoundError None (S (retry.notfoundTick c))))
  else retry.Continue {| retry.notfoundTick := S (retry.notfoundTick c);
                         retry.targetOccurence := retry.targetOccurence c |}.
Proof. done. Qed.

Lemma deleted_found timeout c out st :
  retry.iteration (deletedStateConf timeout) c
                  (PtrDescribeOrganizationOutput out, st, None) =
  if String.eqb st statusDeleted then
    if Nat.eqb 1 (S (retry.targetOccurence c))
    then retry.Return (PtrDescribeOrganizationOutput out) None
    else retry.Continue {| retry.notfoundTick := 0;
                           retry.targetOccurence := S (retry.targetOccurence c) |}
  else if String.eqb st statusDeleting || String.eqb st statusActive then
    retry.Continue {| retry.notfoundTick := 0; retry.targetOccurence := 0 |}
  else retry.Return (PtrDescribeOrganizationOutput out)
                    (Some (UnexpectedStateError st [statusDeleted])).
Proof.
  unfold retry.iteration, retry.scanPending. simpl.
  destruct (String.eqb st statusDeleted) eqn:Hdel.
  - apply String.eqb_eq in Hdel as ->.
    by destruct (retry.targetOccurence c) as [|?].
  - rewrite orb_false_r.
    by destruct (String.eqb st statusDeleting), (String.eqb st statusActive).
Qed.

(** ** The creation wait *)

(** While the creation wait is polling, it has counted at most one
    Active observation, and when it has counted one, that observation
    is followed by not-found reports only. *)
Lemma created_polling_invariant conn id timeout k c :
  retry.polling (createdStateConf timeout) (statusOrganization conn id) k = Some c ->
  retry.targetOccurence c <= 1 /\
  (retry.targetOccurence c = 1 ->
   exists j, j < k /\ observes conn id j statusActive /\
             forall m, j < m < k -> reportsNotFound conn id m).
Proof.
  unfold retry.polling. revert c.
  induction k as [|k IH]; intros c Hk.
  - injection Hk as <-. simpl. split; [lia | lia].
  - rewrite after_S in Hk.
    destruct (retry.after _ _ k 0 retry.start) as [c0|]; [|done].
    destruct (IH c0 eq_refl) as [Hle Hone]. simpl in Hk.
    destruct (statusOrganization_cases conn id k)
      as [(o & Ho)|[(e & He & Hn)|(e & He & Hn)]].
    + rewrite (statusOrganization_found _ _ _ _ Ho), created_found in Hk.
      destruct (String.eqb _ statusActive) eqn:Hact.
      * apply String.eqb_eq in Hact.
        destruct (retry.targetOccurence c0) as [|[|?]] eqn:Hocc; [|done|lia].
        injection Hk as <-. simpl. split; [lia|]. intros _.
        exists k. split; [lia|]. split; [by exists o|]. intros m Hm. lia.
      * destruct (String.eqb _ statusCreating); [|done].
        injection Hk as <-. simpl. split; [lia | lia].
    + rewrite (statusOrganization_notfound _ _ _ _ He Hn), created_notfound in Hk.
      destruct (Nat.ltb 20 _); [done|]. injection Hk as <-. simpl.
      split; [done|]. intros Hocc.
      destruct (Hone Hocc) as (j & Hj & Hobs & Hbetween).
      exists j. split; [lia|]. split; [done|]. intros m Hm.
      destruct (decide (m = k)) as [->|Hne].
      * by exists e.
      * apply Hbetween. lia.
    + by rewrite (statusOrganization_fatal _ _ _ _ He Hn) in Hk.
Qed.

(** Claim C1, as the code has it.  When the creation wait succeeds,
    its last poll observed Active and so did an earlier poll, with
    nothing but not-found reports between the two: a Creating
    observation in between restarts the count, a not-found report does
    not.  In particular a single Active observation flanked by Creating
    observations does not end the wait in success, neither at that poll
    nor at the ones next to it. *)
Theorem waitOrganizationCreated_debounce conn id timeout out polls :
  waitOrganizationCreated conn id timeout = (out, None, polls) ->
  (exists j, S j < polls /\
     observes conn id j statusActive /\
     observes conn id (polls - 1) statusActive /\
     forall m, j < m < polls - 1 -> reportsNotFound conn id m) /\
  (forall n,
     observes conn id n statusCreating ->
     observes conn id (S n) statusActive ->
     observes conn id (S (S n)) statusCreating ->
     polls <> S n /\ polls <> S (S n) /\ polls <> S (S (S n))).
Proof.
  intros Hwait.
  assert (exists j, S j < polls /\
     observes conn id j statusActive /\
     observes conn id (polls - 1) statusActive /\
     forall m, j < m < polls - 1 -> reportsNotFound conn id m) as Htwo.
  { unfold waitOrganizationCreated in Hwait.
    destruct (retry.WaitForStateContext _ _ _) as [[res err] polls'] eqn:Hrun.
    assert (err = None /\ polls' = polls) as [-> ->].
    { destruct err; destruct (assertDescribeOrganizationOutput res);
        simpl in Hwait; by simplify_eq. }
    clear Hwait.
    apply refreshLoop_cases in Hrun
      as [(c' & ls & _ & _ & ? & _)|(k & c' & Hk & Hafter & Hret & ->)]; [done|].
    simpl in Hret. replace (S (0 + k) - 1) with k by lia.
    destruct (created_polling_invariant conn id timeout k c' Hafter) as [Hle Hone].
    destruct (statusOrganization_cases conn id k)
      as [(o & Ho)|[(e & He & Hn)|(e & He & Hn)]].
    - rewrite (statusOrganization_found _ _ _ _ Ho), created_found in Hret.
      destruct (String.eqb _ statusActive) eqn:Hact.
      + apply String.eqb_eq in Hact.
        destruct (retry.targetOccurence c') as [|[|?]] eqn:Hocc; [done| |lia].
        destruct (Hone eq_refl) as (j & Hj & Hobs & Hbetween).
        exists j. split; [lia|]. split; [done|]. split; [by exists o|done].
      + by destruct (String.eqb _ statusCreating).
    - rewrite (statusOrganization_notfound _ _ _ _ He Hn), created_notfound in Hret.
      by destruct (Nat.ltb 20 _).
    - by rewrite (statusOrganization_fatal _ _ _ _ He Hn) in Hret. }
  split; [done|].
  destruct Htwo as (j & Hj & Hfirst & Hlast & Hbetween).
  intros n Hn0 Hn1 Hn2.
  assert (statusActive <> statusCreating) as Hne by done.
  split; [|split]; intros ->.
  - replace (S n - 1) with n in Hlast by lia.
    by pose proof (observes_functional _ _ _ _ _ Hlast Hn0).
  - replace (S (S n) - 1) with (S n) in * by lia.
    destruct (decide (j = n)) as [->|Hjn].
    + by pose proof (observes_functional _ _ _ _ _ Hfirst Hn0).
    + eapply observes_not_reportsNotFound; [exact Hn0|]. apply Hbetween. lia.
  - replace (S (S (S n)) - 1) with (S (S n)) in Hlast by lia.
    by pose proof (observes_functional _ _ _ _ _ Hlast Hn2).
Qed.

(** ** Runs of not-found reports *)

Section NotFoundRun.

Variable conf : retry.StateChangeConf.
Variable conn : Client.
Variable id : string.

(** Both waiters count a not-found report against twenty checks. *)
Hypothesis conf_notfound : forall c st,
  retry.iteration conf c (Nil, st, None) =
  if Nat.ltb 20 (S (retry.notfoundTick c))
  then retry.Return Nil (Some (NotFoundError None (S (retry.notfoundTick c))))
  else retry.Continue {| retry.notfoundTick := S (retry.notfoundTick c);
                         retry.targetOccurence := retry.targetOccurence c |}.

Lemma notfound_run m i c :
  (forall j, j < m -> reportsNotFound conn id (i + j)) ->
  retry.notfoundTick c + m <= 20 ->
  retry.after conf (statusOrganization conn id) m i c =
  Some {| retry.notfoundTick := retry.notfoundTick c + m;
          retry.targetOccurence := retry.targetOccurence c |}.
Proof.
  revert i c. induction m as [|m IH]; intros i c Hrun Hle; simpl.
  - rewrite Nat.add_0_r. by destruct c.
  - destruct (Hrun 0 ltac:(lia)) as (e & He & Hn).
    rewrite Nat.add_0_r in He.
    rewrite (statusOrganization_notfound _ _ _ _ He Hn), conf_notfound.
    destruct (Nat.ltb_spec 20 (S (retry.notfoundTick c))); [lia|].
    rewrite IH; simpl.
    + f_equal. f_equal. lia.
    + intros j Hj. pose proof (Hrun (S j) ltac:(lia)) as Hj'.
      by rewrite Nat.add_succ_r in Hj'.
    + lia.
Qed.

(** The report that exceeds the twenty checks ends the wait with a
    [NotFoundError]. *)
Lemma notfound_exceeded budget k c :
  retry.polling conf (statusOrganization conn id) k = Some c ->
  retry.notfoundTick c = 0 ->
  (forall j, j < 21 -> reportsNotFound conn id (k + j)) ->
  k + 21 <= budget ->
  retry.WaitForStateContext conf (statusOrganization conn id) budget =
  (Nil, Some (NotFoundError None 21), k + 21).
Proof.
  intros Hk Htick Hrun Hbudget.
  unfold retry.WaitForStateContext.
  replace (k + 21) with (S (0 + (k + 20))) by lia.
  apply refreshLoop_return
    with (c' := {| retry.notfoundTick := 20;
                   retry.targetOccurence := retry.targetOccurence c |}).
  - rewrite after_add. unfold retry.polling in Hk. rewrite Hk.
    rewrite notfound_run; [by rewrite Htick| |lia].
    intros j Hj. apply Hrun. lia.
  - lia.
  - destruct (Hrun 20 ltac:(lia)) as (e & He & Hn). simpl.
    by rewrite (statusOrganization_notfound _ _ _ _ He Hn), conf_notfound.
Qed.

End NotFoundRun.

(** Claim C5, as the code has it.  From any point at which the creation
    wait is polling with no not-found report pending, up to twenty
    not-found reports in a row are tolerated and the wait keeps polling;
    the twenty-first in a row ends the wait with a [NotFoundError]
    carrying 21 retries, which is not a timeout. *)
Theorem waitOrganizationCreated_notfound_threshold conn id timeout k c :
  retry.polling (createdStateConf timeout) (statusOrganization conn id) k = Some c ->
  retry.notfoundTick c = 0 ->
  (forall m, m <= 20 ->
     (forall j, j < m -> reportsNotFound conn id (k + j)) ->
     retry.polling (createdStateConf timeout) (statusOrganization conn id) (k + m) =
     Some {| retry.notfoundTick := m;
             retry.targetOccurence := retry.targetOccurence c |}) /\
  ((forall j, j < 21 -> reportsNotFound conn id (k + j)) ->
   k + 21 <= pollsWithin timeout ->
   waitOrganizationCreated conn id timeout =
     (None, Some (Smarterr (NotFoundError None 21)), k + 21) /\
   IsTimeoutError (Smarterr (NotFoundError None 21)) = false).
Proof.
  intros Hk Htick. split.
  - intros m Hm Hrun. unfold retry.polling in *.
    rewrite after_add, Hk.
    rewrite (notfound_run _ conn id (created_notfound timeout)); [|done|lia].
    by rewrite Htick.
  - intros Hrun Hbudget. split; [|done].
    unfold waitOrganizationCreated.
    by rewrite (notfound_exceeded _ conn id (created_notfound timeout)
                  _ k c Hk Htick Hrun Hbudget).
Qed.

(** ** The deletion wait *)

Lemma deleted_polling_invariant conn id timeout k c :
  retry.polling (deletedStateConf timeout) (statusOrganization conn id) k = Some c ->
  retry.targetOccurence c = 0.
Proof.
  unfold retry.polling. revert c.
  induction k as [|k IH]; intros c Hk.
  - by injection Hk as <-.
  - rewrite after_S in Hk.
    destruct (retry.after _ _ k 0 retry.start) as [c0|]; [|done].
    pose proof (IH c0 eq_refl) as Hocc. simpl in Hk.
    destruct (statusOrganization_cases conn id k)
      as [(o & Ho)|[(e & He & Hn)|(e & He & Hn)]].
    + rewrite (statusOrganization_found _ _ _ _ Ho), deleted_found, Hocc in Hk.
      destruct (String.eqb _ statusDeleted); [done|].
      destruct (_ || _); [|done]. by injection Hk as <-.
    + rewrite (statusOrganization_notfound _ _ _ _ He Hn), deleted_notfound in Hk.
      destruct (Nat.ltb 20 _); [done|]. by injection Hk as <-.
    + by rewrite (statusOrganization_fatal _ _ _ _ He Hn) in Hk.
Qed.

(** The first observation of Deleted ends the deletion wait in success. *)
Lemma waitOrganizationDeleted_first_Deleted conn id timeout k c :
  retry.polling (deletedStateConf timeout) (statusOrganization conn id) k = Some c ->
  k < pollsWithin timeout ->
  observes conn id k statusDeleted ->
  waitOrganizationDeleted conn id timeout = (None, None, S k).
Proof.
  intros Hk Hlt (o & Ho & Hst).
  pose proof (deleted_polling_invariant _ _ _ _ _ Hk) as Hocc.
  unfold waitOrganizationDeleted, retry.WaitForStateContext.
  rewrite (refreshLoop_return _ _ k _ 0 _ c ""
             (PtrDescribeOrganizationOutput o) None Hk Hlt); [done|].
  simpl. by rewrite (statusOrganization_found _ _ _ _ Ho), deleted_found, Hst, Hocc.
Qed.

(** A not-found report does not end the deletion wait: it is counted
    like any other, and twenty-one in a row end the wait with a
    [NotFoundError]. *)
Lemma waitOrganizationDeleted_notfound conn id timeout k c :
  retry.polling (deletedStateConf timeout) (statusOrganization conn id) k = Some c ->
  retry.notfoundTick c = 0 ->
  (forall j, j < 21 -> reportsNotFound conn id (k + j)) ->
  k + 21 <= pollsWithin timeout ->
  waitOrganizationDeleted conn id timeout =
    (None, Some (Smarterr (NotFoundError None 21)), k + 21).
Proof.
  intros Hk Htick Hrun Hbudget. unfold waitOrganizationDeleted.
  by rewrite (notfound_exceeded _ conn id (deleted_notfound timeout)
                _ k c Hk Htick Hrun Hbudget).
Qed.

(** Claim C10.  Whatever the remote answers and however the wait ends,
    [waitOrganizationDeleted] returns a nil organization: the poller
    hands back nil or a describe output, and neither passes the
    waiter's type assertion. *)
Theorem waitOrganizationDeleted_returns_nil conn id timeout :
  (waitOrganizationDeleted conn id timeout).1.1 = None.
Proof.
  unfold waitOrganizationDeleted.
  destruct (retry.WaitForStateContext _ _ _) as [[res err] polls] eqn:Hrun.
  apply WaitForStateContext_result in Hrun as [->|(o & ->)]; done.
Qed.

(** Claim C8.  In either wait, a poll whose fetch fails with an error
    that is not a not-found condition ends the wait at that very poll:
    the wait returns the error, wrapped, and makes no further poll. *)
Theorem wait_aborts_on_fetch_error conn id timeout k err :
  findOrganizationByID conn k id = inr err ->
  NotFound err = false ->
  k < pollsWithin timeout ->
  (forall c,
     retry.polling (createdStateConf timeout) (statusOrganization conn id) k = Some c ->
     waitOrganizationCreated conn id timeout =
       (None, Some (Smarterr (Smarterr err)), S k)) /\
  (forall c,
     retry.polling (deletedStateConf timeout) (statusOrganization conn id) k = Some c ->
     waitOrganizationDeleted conn id timeout =
       (None, Some (Smarterr (Smarterr err)), S k)).
Proof.
  intros Hfind Hnf Hlt.
  pose proof (statusOrganization_fatal _ _ _ _ Hfind Hnf) as Hst.
  split; intros c Hk.
  - unfold waitOrganizationCreated, retry.WaitForStateContext.
    rewrite (refreshLoop_return _ _ k _ 0 _ c "" Nil (Some (Smarterr err)) Hk Hlt);
      [done|].
    simpl. by rewrite Hst.
  - unfold waitOrganizationDeleted, retry.WaitForStateContext.
    rewrite (refreshLoop_return _ _ k _ 0 _ c "" Nil (Some (Smarterr err)) Hk Hlt);
      [done|].
    simpl. by rewrite Hst.
Qed.

(** ** The lifecycle handlers *)

Lemma HasError_app ds ds' : HasError (ds ++ ds') = HasError ds || HasError ds'.
Proof. apply existsb_app. Qed.

(** What Create does once it has reached the wait. *)
Lemma Create_after_wait r conn req resp plan' resp' :
  createReachesWait conn req resp plan' resp' ->
  let w := waitOrganizationCreated conn (ValueString (ID plan'))
                                   (CreateTimeout r (Timeouts plan')) in
  (Create r conn req resp).1 =
    match w.1.2 with
    | Some err => AddError resp' err (tfString_String (Alias plan'))
    | None => StateSet resp' plan'
    end /\
  length (Create r conn req resp).2 = S w.2.
Proof.
  intros (ds1 & plan & ds2 & input & out & ds3 &
          Hget & Hexp & Hcreate & [oid Hid] & Hflat & -> & Herr).
  simpl in Herr. rewrite !HasError_app in Herr.
  apply orb_false_elim in Herr as [Herr H3].
  apply orb_false_elim in Herr as [Herr H2].
  apply orb_false_elim in Herr as [H0 H1].
  unfold Create. rewrite Hget. simpl. rewrite HasError_app, H0, H1. simpl.
  rewrite Hexp. simpl. rewrite !HasError_app, H0, H1, H2. simpl.
  rewrite Hcreate, Hid, Hflat. simpl. rewrite !HasError_app, H0, H1, H2, H3. simpl.
  destruct (waitOrganizationCreated _ _ _) as [[o err] polls]. simpl.
  destruct err; simpl; (split; [done|]); unfold pollCalls; by rewrite length_replicate.
Qed.

(** Polls that all observe Creating keep the creation wait polling. *)
Lemma created_all_creating conn id timeout m :
  (forall n, n < m -> observes conn id n statusCreating) ->
  retry.polling (createdStateConf timeout) (statusOrganization conn id) m =
  Some retry.start.
Proof.
  unfold retry.polling. induction m as [|m IH]; intros Hobs; [done|].
  rewrite after_S, IH by (intros n Hn; apply Hobs; lia). simpl.
  destruct (Hobs m ltac:(lia)) as (o & Ho & Hst).
  by rewrite (statusOrganization_found _ _ _ _ Ho), created_found, Hst.
Qed.

(** Claim C4.  In an execution of Create whose wait sees the
    organization in the pending state Creating at every poll the
    timeout allows, the wait returns a timeout error, and Create
    records it as an error and leaves the response's state as it was. *)
Theorem Create_timeout_commits_nothing r conn req resp plan' resp' :
  createReachesWait conn req resp plan' resp' ->
  let timeout := CreateTimeout r (Timeouts plan') in
  let id := ValueString (ID plan') in
  (forall n, n < pollsWithin timeout -> observes conn id n statusCreating) ->
  (exists ls,
     waitOrganizationCreated conn id timeout =
     (None, Some (Smarterr (TimeoutError None ls timeout [statusActive])),
      pollsWithin timeout)) /\
  State (Create r conn req resp).1 = State resp /\
  HasError (Diagnostics (Create r conn req resp).1) = true.
Proof.
  intros Hreach timeout id Hpending.
  pose proof (created_all_creating conn id timeout _ Hpending) as Hpoll.
  destruct (refreshLoop_timeout _ _ _ 0 _ _ "" Hpoll) as [ls Hls].
  assert (waitOrganizationCreated conn id timeout =
          (None, Some (Smarterr (TimeoutError None ls timeout [statusActive])),
           pollsWithin timeout)) as Hwait.
  { unfold waitOrganizationCreated, retry.WaitForStateContext. by rewrite Hls. }
  split; [by exists ls|].
  destruct (Create_after_wait r _ _ _ _ _ Hreach) as [-> _].
  fold timeout id. rewrite Hwait. simpl.
  destruct Hreach as (ds1 & plan & ds2 & input & out & ds3 & _ & _ & _ & _ & _ & -> & _).
  split; [done|]. rewrite HasError_app. simpl. apply orb_true_r.
Qed.

(** Claim C6.  When DeleteOrganization answers with
    ResourceNotFoundException, Delete records no error and makes no
    further call: the delete request is the only remote call, and no
    poll follows. *)
Theorem Delete_not_found_is_success r conn req resp ds state out err :
  Get (drState req) = (ds, state) ->
  HasError (Diagnostics resp ++ ds) = false ->
  let input := {| xiOrganizationId := ValueStringPointer (ID state);
                  xiClientToken := Some UniqueId |} in
  DeleteOrganization conn input = (out, Some err) ->
  IsResourceNotFoundException err = true ->
  Delete r conn req resp = (EnrichAppend resp ds, [CallDeleteOrganization input]) /\
  HasError (Diagnostics (Delete r conn req resp).1) = false.
Proof.
  intros Hget Hok input Hdel Hnf.
  assert (Delete r conn req resp =
          (EnrichAppend resp ds, [CallDeleteOrganization input])) as Heq.
  { unfold Delete. rewrite Hget. simpl. rewrite Hok.
    fold input. by rewrite Hdel, Hnf. }
  split; [done|]. by rewrite Heq.
Qed.

(** Claim C7.  When the fetch of Read reports not-found, Read removes
    the resource from the state and adds a warning, not an error, to
    the diagnostics. *)
Theorem Read_not_found_removes r conn req resp ds state err :
  Get (rrState req) = (ds, state) ->
  HasError (Diagnostics resp ++ ds) = false ->
  findOrganizationByID conn 0 (ValueString (ID state)) = inr err ->
  NotFound err = true ->
  (Read r conn req resp).1 =
    {| Diagnostics :=
         (Diagnostics resp ++ ds) ++ [NewResourceNotFoundWarningDiagnostic err];
       State := None |} /\
  HasError (Diagnostics (Read r conn req resp).1) = false.
Proof.
  intros Hget Hok Hfind Hnf.
  assert ((Read r conn req resp).1 =
    {| Diagnostics :=
         (Diagnostics resp ++ ds) ++ [NewResourceNotFoundWarningDiagnostic err];
       State := None |}) as Heq.
  { unfold Read. rewrite Hget. simpl. by rewrite Hok, Hfind, Hnf. }
  split; [done|]. rewrite Heq. simpl. rewrite HasError_app, Hok. done.
Qed.

(** Claim C3, as the code has it.  The schema's timeouts block offers
    the create phase: a create timeout the user supplies is accepted,
    it is the timeout Create computes, and Create's wait runs with
    it. *)
Theorem create_timeout_is_configurable v d :
  ParseDuration v = Some d ->
  timeoutsAccepted Schema {[ "create" := StringValue v ]} = true /\
  (forall r conn req resp plan' resp',
     createReachesWait conn req resp plan' resp' ->
     Timeouts plan' !! "create" = Some (StringValue v) ->
     CreateTimeout r (Timeouts plan') = d /\
     let w := waitOrganizationCreated conn (ValueString (ID plan')) d in
     (Create r conn req resp).1 =
       match w.1.2 with
       | Some err => AddError resp' err (tfString_String (Alias plan'))
       | None => StateSet resp' plan'
       end /\
     length (Create r conn req resp).2 = S w.2).
Proof.
  intros Hparse. split.
  - unfold timeoutsAccepted.
    assert (Schema !! "timeouts" =
            Some (timeouts.Attributes
                    {| timeouts.Create := true; timeouts.Read := false;
                       timeouts.Update := false; timeouts.Delete := false |}))
      as -> by (by vm_compute).
    simpl. apply bool_decide_eq_true.
    unfold timeouts.attributesMap. simpl. by rewrite dom_singleton_L, dom_insert_L.
  - intros r conn req resp plan' resp' Hreach Hblock.
    assert (CreateTimeout r (Timeouts plan') = d) as Hd.
    { unfold CreateTimeout, timeouts.getTimeout. by rewrite Hblock, Hparse. }
    split; [done|]. rewrite <- Hd. by apply Create_after_wait.
Qed.

(** X27.  A timeouts block the schema accepts cannot set the delete
    phase, so Delete always waits for the resource's default. *)
Lemma delete_timeout_is_default r (block : gmap string tfString) :
  timeoutsAccepted Schema block = true ->
  DeleteTimeout r block = defaultDeleteTimeout r.
Proof.
  unfold timeoutsAccepted.
  assert (Schema !! "timeouts" =
          Some (timeouts.Attributes
                  {| timeouts.Create := true; timeouts.Read := false;
                     timeouts.Update := false; timeouts.Delete := false |}))
    as -> by (by vm_compute).
  simpl. intros Hsub%bool_decide_eq_true.
  unfold timeouts.attributesMap in Hsub. simpl in Hsub.
  rewrite dom_insert_L, dom_empty_L in Hsub.
  assert (block !! "delete" = None) as Hnone.
  { apply not_elem_of_dom. intros Hin%Hsub.
rewrite elem_of_union, elem_of_singleton, elem_of_empty in Hin.
by destruct Hin as [?|[]]. }
  unfold DeleteTimeout, timeouts.getTimeout. by rewrite Hnone.
Qed.

(** ** More about the finder and the waiters *)

Lemma findOrganizationByID_id conn n id out :
  findOrganizationByID conn n id = inl out -> is_Some (doOrganizationId out).
Proof.
  unfold findOrganizationByID.
  destruct (DescribeOrganization conn n _) as [[o|] [e|]];
    try (destruct (IsResourceNotFoundException e); done); [|done].
  destruct (doOrganizationId o) as [oid|] eqn:Hid; [|done].
  intros [= <-]. by rewrite Hid.
Qed.

(** X1.  The finder returns an output exactly when DescribeOrganization
    returned that output without an error and the output carries an
    organization id. *)
Theorem findOrganizationByID_found conn n id out :
  findOrganizationByID conn n id = inl out <->
  DescribeOrganization conn n {| diOrganizationId := Some id |} = (Some out, None) /\
  is_Some (doOrganizationId out).
Proof.
  unfold findOrganizationByID.
  destruct (DescribeOrganization conn n _) as [[o|] [e|]].
  - destruct (IsResourceNotFoundException e); split; [done|by intros [? _]|done|by intros [? _]].
  - destruct (doOrganizationId o) as [oid|] eqn:Hid.
    + split; [intros [= <-]; by rewrite Hid | by intros [[= ->] _]].
    + split; [done|]. intros [[= ->] [? Hsome]]. congruence.
  - destruct (IsResourceNotFoundException e); split; [done|by intros [? _]|done|by intros [? _]].
  - split; [done|by intros [? _]].
Qed.





(** X3.  When the creation wait succeeds, the output it returns is the
    one its last poll fetched: it is in state Active and carries an
    organization id, and the wait has polled at least twice. *)
Theorem waitOrganizationCreated_success_output conn id timeout out polls :
  waitOrganizationCreated conn id timeout = (out, None, polls) ->
  exists o,
    out = Some o /\ 2 <= polls /\
    findOrganizationByID conn (polls - 1) id = inl o /\
    ToString (doState o) = statusActive /\
    is_Some (doOrganizationId o).
Proof.
  unfold waitOrganizationCreated. intros Hwait.
  destruct (retry.WaitForStateContext _ _ _) as [[res err] polls'] eqn:Hrun.
  assert (err = None /\ polls' = polls /\ assertDescribeOrganizationOutput res = out)
    as (-> & -> & <-).
  { destruct err; destruct (assertDescribeOrganizationOutput res);
      simpl in Hwait; by simplify_eq. }
  clear Hwait.
  apply refreshLoop_cases in Hrun
    as [(c' & ls & _ & _ & ? & _)|(k & c' & Hk & Hafter & Hret & ->)]; [done|].
  simpl in Hret. replace (S (0 + k) - 1) with k by lia.
  destruct (created_polling_invariant conn id timeout k c' Hafter) as [Hle Hone].
  destruct (statusOrganization_cases conn id k)
    as [(o & Ho)|[(e & He & Hn)|(e & He & Hn)]].
  - rewrite (statusOrganization_found _ _ _ _ Ho), created_found in Hret.
    destruct (String.eqb _ statusActive) eqn:Hact.
    + apply String.eqb_eq in Hact.
      destruct (retry.targetOccurence c') as [|[|?]] eqn:Hocc; [done| |lia].
      destruct (Hone eq_refl) as (j & Hj & _).
      injection Hret as <-. exists o. simpl.
      split; [done|]. split; [lia|]. split; [done|]. split; [done|].
      by apply findOrganizationByID_id in Ho.
    + by destruct (String.eqb _ statusCreating).
  - rewrite (statusOrganization_notfound _ _ _ _ He Hn), created_notfound in Hret.
    by destruct (Nat.ltb 20 _).
  - by rewrite (statusOrganization_fatal _ _ _ _ He Hn) in Hret.
Qed.

(** X4.  Two Active observations in a row, at a point where the creation
    wait is polling and has counted no Active observation yet, end the
    wait in success at the second of them. *)
Theorem waitOrganizationCreated_two_Active conn id timeout k c o1 o2 :
  retry.polling (createdStateConf timeout) (statusOrganization conn id) k = Some c ->
  retry.targetOccurence c = 0 ->
  findOrganizationByID conn k id = inl o1 ->
  ToString (doState o1) = statusActive ->
  findOrganizationByID conn (S k) id = inl o2 ->
  ToString (doState o2) = statusActive ->
  S k < pollsWithin timeout ->
  waitOrganizationCreated conn id timeout = (Some o2, None, S (S k)).
Proof.
  intros Hk Hocc Ho1 Hs1 Ho2 Hs2 Hlt.
  unfold waitOrganizationCreated, retry.WaitForStateContext.
  rewrite (refreshLoop_return _ _ (S k) _ 0
             _ {| retry.notfoundTick := 0; retry.targetOccurence := 1 |} ""
             (PtrDescribeOrganizationOutput o2) None); [done| |done|].
  - unfold retry.polling in Hk. rewrite after_S, Hk. simpl.
    by rewrite (statusOrganization_found _ _ _ _ Ho1), created_found, Hs1, Hocc.
  - simpl. by rewrite (statusOrganization_found _ _ _ _ Ho2), created_found, Hs2.
Qed.

(** X5.  A poll of the creation wait that finds the organization in a
    state other than Creating and Active ends the wait at that poll with
    an [UnexpectedStateError] naming the state; the output fetched is
    returned along with the error. *)
Theorem waitOrganizationCreated_unexpected_state conn id timeout k c o :
  retry.polling (createdStateConf timeout) (statusOrganization conn id) k = Some c ->
  k < pollsWithin timeout ->
  findOrganizationByID conn k id = inl o ->
  ToString (doState o) <> statusActive ->
  ToString (doState o) <> statusCreating ->
  waitOrganizationCreated conn id timeout =
    (Some o,
     Some (Smarterr (UnexpectedStateError (ToString (doState o)) [statusActive])),
     S k).
Proof.
  intros Hk Hlt Ho Hna Hnc.
  unfold waitOrganizationCreated, retry.WaitForStateContext.
  rewrite (refreshLoop_return _ _ k _ 0 _ c ""
             (PtrDescribeOrganizationOutput o)
             (Some (UnexpectedStateError (ToString (doState o)) [statusActive]))
             Hk Hlt); [done|].
  simpl. rewrite (statusOrganization_found _ _ _ _ Ho), created_found.
  apply String.eqb_neq in Hna, Hnc. by rewrite Hna, Hnc.
Qed.

(** X6.  In both waits a poll that finds the organization sets the count
    of not-found reports back to zero, so only reports in a row are
    counted against the twenty checks. *)
Theorem found_resets_notfound_count conn id timeout k c out :
  findOrganizationByID conn k id = inl out ->
  (retry.polling (createdStateConf timeout) (statusOrganization conn id) (S k) = Some c ->
   retry.notfoundTick c = 0) /\
  (retry.polling (deletedStateConf timeout) (statusOrganization conn id) (S k) = Some c ->
   retry.notfoundTick c = 0).
Proof.
  intros Ho. unfold retry.polling. rewrite !after_S. simpl.
  rewrite (statusOrganization_found _ _ _ _ Ho). split.
  - destruct (retry.after _ _ k 0 retry.start) as [c0|]; [|done].
    rewrite created_found.
    repeat match goal with
           | |- context [if ?b then _ else _] => destruct b
           end; by intros [= <-].
  - destruct (retry.after _ _ k 0 retry.start) as [c0|]; [|done].
    rewrite deleted_found.
    repeat match goal with
           | |- context [if ?b then _ else _] => destruct b
           end; by intros [= <-].
Qed.

(** ** More about the deletion wait and Delete *)

(** While the deletion wait is polling, every poll so far has seen
    Deleting or Active or a not-found report. *)
Lemma deleted_polling_history conn id timeout k c :
  retry.polling (deletedStateConf timeout) (statusOrganization conn id) k = Some c ->
  forall m, m < k ->
    observes conn id m statusDeleting \/ observes conn id m statusActive \/
    reportsNotFound conn id m.
Proof.
  unfold retry.polling. revert c.
  induction k as [|k IH]; intros c Hk m Hm; [lia|].
  rewrite after_S in Hk.
  destruct (retry.after _ _ k 0 retry.start) as [c0|] eqn:Hk0; [|done].
  destruct (decide (m = k)) as [->|Hne]; [|apply (IH c0 eq_refl); lia].
  simpl in Hk.
  destruct (statusOrganization_cases conn id k)
    as [(o & Ho)|[(e & He & Hn)|(e & He & Hn)]].
  - rewrite (statusOrganization_found _ _ _ _ Ho), deleted_found in Hk.
    rewrite (deleted_polling_invariant conn id timeout k c0 Hk0) in Hk.
    destruct (String.eqb _ statusDeleted); [done|].
    destruct (String.eqb _ statusDeleting) eqn:H1.
    + left. exists o. by apply String.eqb_eq in H1.
    + destruct (String.eqb _ statusActive) eqn:H2; [|done].
      right. left. exists o. by apply String.eqb_eq in H2.
  - right. right. by exists e.
  - by rewrite (statusOrganization_fatal _ _ _ _ He Hn) in Hk.
Qed.

(** X7.  When the deletion wait succeeds, its last poll observed Deleted
    and every poll before it saw Deleting, Active or a not-found report;
    the organization it returns is nil. *)
Theorem waitOrganizationDeleted_success conn id timeout out polls :
  waitOrganizationDeleted conn id timeout = (out, None, polls) ->
  out = None /\ 1 <= polls /\
  observes conn id (polls - 1) statusDeleted /\
  forall m, m < polls - 1 ->
    observes conn id m statusDeleting \/ observes conn id m statusActive \/
    reportsNotFound conn id m.
Proof.
  unfold waitOrganizationDeleted. intros Hwait.
  destruct (retry.WaitForStateContext _ _ _) as [[res err] polls'] eqn:Hrun.
  destruct (WaitForStateContext_result _ _ _ _ _ _ _ Hrun) as [Hres|(o' & Hres)];
    subst res; simpl in Hwait;
    (assert (err = None /\ polls' = polls /\ out = None) as (-> & -> & ->)
      by (destruct err; by simplify_eq));
    clear Hwait; (split; [done|]);
    apply refreshLoop_cases in Hrun
      as [(c' & ls & _ & _ & ? & _)|(k & c' & Hk & Hafter & Hret & ->)]; try done;
    simpl in Hret; replace (S (0 + k) - 1) with k by lia;
    (split; [lia|]);
    (split; [|by apply (deleted_polling_history conn id timeout k c')]);
    pose proof (deleted_polling_invariant _ _ _ _ _ Hafter) as Hocc;
    destruct (statusOrganization_cases conn id k)
      as [(o & Ho)|[(e & He & Hn)|(e & He & Hn)]].
  - by rewrite (statusOrganization_found _ _ _ _ Ho), deleted_found in Hret;
      destruct (String.eqb _ statusDeleted); [destruct (Nat.eqb _ _)|destruct (_ || _)].
  - rewrite (statusOrganization_notfound _ _ _ _ He Hn), deleted_notfound in Hret.
    by destruct (Nat.ltb 20 _).
  - by rewrite (statusOrganization_fatal _ _ _ _ He Hn) in Hret.
  - rewrite (statusOrganization_found _ _ _ _ Ho), deleted_found in Hret.
    destruct (String.eqb _ statusDeleted) eqn:Hdel.
    + exists o. by apply String.eqb_eq in Hdel.
    + by destruct (_ || _).
  - rewrite (statusOrganization_notfound _ _ _ _ He Hn), deleted_notfound in Hret.
    by destruct (Nat.ltb 20 _).
  - by rewrite (statusOrganization_fatal _ _ _ _ He Hn) in Hret.
Qed.

(** X8.  A poll of the deletion wait that finds the organization in a
    state other than Deleted, Deleting and Active ends the wait at that
    poll with an [UnexpectedStateError]; unlike the creation wait, the
    deletion wait returns no output with it. *)
Theorem waitOrganizationDeleted_unexpected_state conn id timeout k c o :
  retry.polling (deletedStateConf timeout) (statusOrganization conn id) k = Some c ->
  k < pollsWithin timeout ->
  findOrganizationByID conn k id = inl o ->
  ToString (doState o) <> statusDeleted ->
  ToString (doState o) <> statusDeleting ->
  ToString (doState o) <> statusActive ->
  waitOrganizationDeleted conn id timeout =
    (None,
     Some (Smarterr (UnexpectedStateError (ToString (doState o)) [statusDeleted])),
     S k).
Proof.
  intros Hk Hlt Ho Hn1 Hn2 Hn3.
  unfold waitOrganizationDeleted, retry.WaitForStateContext.
  rewrite (refreshLoop_return _ _ k _ 0 _ c ""
             (PtrDescribeOrganizationOutput o)
             (Some (UnexpectedStateError (ToString (doState o)) [statusDeleted]))
             Hk Hlt); [done|].
  simpl. rewrite (statusOrganization_found _ _ _ _ Ho), deleted_found.
  apply String.eqb_neq in Hn1, Hn2, Hn3. by rewrite Hn1, Hn2, Hn3.
Qed.

(** What Delete does once DeleteOrganization has succeeded. *)
Lemma Delete_after_wait r conn req resp ds state out :
  Get (drState req) = (ds, state) ->
  HasError (Diagnostics resp ++ ds) = false ->
  let input := {| xiOrganizationId := ValueStringPointer (ID state);
                  xiClientToken := Some UniqueId |} in
  DeleteOrganization conn input = (out, None) ->
  let id := ValueString (ID state) in
  let w := waitOrganizationDeleted conn id (DeleteTimeout r (Timeouts state)) in
  Delete r conn req resp =
    (match w.1.2 with
     | Some err => AddError (EnrichAppend resp ds) err (tfString_String (ID state))
     | None => EnrichAppend resp ds
     end,
     CallDeleteOrganization input :: pollCalls id w.2).
Proof.
  intros Hget Hok input Hdel id w. unfold Delete.
  rewrite Hget. simpl. rewrite Hok. fold input. rewrite Hdel. fold id w.
  destruct w as [[o err] polls]. simpl. by destruct err.
Qed.

(** Polls that all observe Deleting or Active keep the deletion wait
    polling. *)
Lemma deleted_all_pending conn id timeout m :
  (forall n, n < m ->
     observes conn id n statusDeleting \/ observes conn id n statusActive) ->
  retry.polling (deletedStateConf timeout) (statusOrganization conn id) m =
  Some retry.start.
Proof.
  unfold retry.polling. induction m as [|m IH]; intros Hobs; [done|].
  rewrite after_S, IH by (intros n Hn; apply Hobs; lia). simpl.
  destruct (Hobs m ltac:(lia)) as [(o & Ho & Hst)|(o & Ho & Hst)];
    by rewrite (statusOrganization_found _ _ _ _ Ho), deleted_found, Hst.
Qed.

(** X9.  When DeleteOrganization succeeds and the deletion wait sees the
    organization Deleting or Active at every poll its timeout allows,
    Delete records a timeout error carrying that timeout, after exactly
    that many describe calls. *)
Theorem Delete_timeout r conn req resp ds state out :
  Get (drState req) = (ds, state) ->
  HasError (Diagnostics resp ++ ds) = false ->
  let input := {| xiOrganizationId := ValueStringPointer (ID state);
                  xiClientToken := Some UniqueId |} in
  DeleteOrganization conn input = (out, None) ->
  let id := ValueString (ID state) in
  let timeout := DeleteTimeout r (Timeouts state) in
  (forall n, n < pollsWithin timeout ->
     observes conn id n statusDeleting \/ observes conn id n statusActive) ->
  exists ls,
    Delete r conn req resp =
      (AddError (EnrichAppend resp ds)
                (Smarterr (TimeoutError None ls timeout [statusDeleted]))
                (tfString_String (ID state)),
       CallDeleteOrganization input :: pollCalls id (pollsWithin timeout)).
Proof.
  intros Hget Hok input Hdel id timeout Hpending.
  pose proof (deleted_all_pending conn id timeout _ Hpending) as Hpoll.
  destruct (refreshLoop_timeout _ _ _ 0 _ _ "" Hpoll) as [ls Hls].
  exists ls. rewrite (Delete_after_wait r conn req resp ds state out Hget Hok Hdel).
  fold input id timeout.
  unfold waitOrganizationDeleted, retry.WaitForStateContext. by rewrite Hls.
Qed.

(** X10.  When DeleteOrganization succeeds and a poll of the wait then
    observes Deleted, Delete adds no diagnostic of its own and has made
    the delete call followed by the describe calls up to that poll. *)
Theorem Delete_success r conn req resp ds state out k c :
  Get (drState req) = (ds, state) ->
  HasError (Diagnostics resp ++ ds) = false ->
  let input := {| xiOrganizationId := ValueStringPointer (ID state);
                  xiClientToken := Some UniqueId |} in
  DeleteOrganization conn input = (out, None) ->
  let id := ValueString (ID state) in
  let timeout := DeleteTimeout r (Timeouts state) in
  retry.polling (deletedStateConf timeout) (statusOrganization conn id) k = Some c ->
  k < pollsWithin timeout ->
  observes conn id k statusDeleted ->
  Delete r conn req resp =
    (EnrichAppend resp ds, CallDeleteOrganization input :: pollCalls id (S k)).
Proof.
  intros Hget Hok input Hdel id timeout Hk Hlt Hobs.
  rewrite (Delete_after_wait r conn req resp ds state out Hget Hok Hdel).
  fold input id timeout.
  by rewrite (waitOrganizationDeleted_first_Deleted conn id timeout k c Hk Hlt Hobs).
Qed.

(** X11.  When DeleteOrganization fails with an error that is not a
    ResourceNotFoundException, Delete records that error and does not
    poll. *)
Theorem Delete_api_error r conn req resp ds state out err :
  Get (drState req) = (ds, state) ->
  HasError (Diagnostics resp ++ ds) = false ->
  let input := {| xiOrganizationId := ValueStringPointer (ID state);
                  xiClientToken := Some UniqueId |} in
  DeleteOrganization conn input = (out, Some err) ->
  IsResourceNotFoundException err = false ->
  Delete r conn req resp =
    (AddError (EnrichAppend resp ds) err (tfString_String (ID state)),
     [CallDeleteOrganization input]).
Proof.
  intros Hget Hok input Hdel Hnf. unfold Delete.
  rewrite Hget. simpl. rewrite Hok. fold input. by rewrite Hdel, Hnf.
Qed.


(** ** More about Create and Read *)

(** X13.  Create changes the response's state only at the end of a run
    in which the wait has succeeded and no error has been recorded: the
    state is then the plan as flattened from the create output. *)
Theorem Create_writes_state_only_after_success r conn req resp :
  State (Create r conn req resp).1 <> State resp ->
  exists plan' resp' out polls,
    createReachesWait conn req resp plan' resp' /\
    waitOrganizationCreated conn (ValueString (ID plan'))
      (CreateTimeout r (Timeouts plan')) = (out, None, polls) /\
    State (Create r conn req resp).1 = Some plan' /\
    HasError (Diagnostics (Create r conn req resp).1) = false.
Proof.
  unfold Create.
  destruct (Get (crPlan req)) as [ds1 plan] eqn:Hget. simpl.
  destruct (HasError (Diagnostics resp ++ ds1)) eqn:H1; [done|].
  destruct (Expand plan) as [ds2 input] eqn:Hexp. simpl.
  destruct (HasError ((Diagnostics resp ++ ds1) ++ ds2)) eqn:H2; [done|].
  destruct (CreateOrganization conn _) as [[out|] [err|]] eqn:Hcreate; try done.
  destruct (coOrganizationId out) as [oid|] eqn:Hid; [|done].
  destruct (FlattenCreate out plan) as [ds3 plan'] eqn:Hflat. simpl.
  destruct (HasError (((Diagnostics resp ++ ds1) ++ ds2) ++ ds3)) eqn:H3; [done|].
  destruct (waitOrganizationCreated _ _ _) as [[o err] polls] eqn:Hwait.
  destruct err; [done|]. simpl.
  destruct (HasError (SetDiagnostics plan')) eqn:H4; [done|]. intros _.
  exists plan', (EnrichAppend (EnrichAppend (EnrichAppend resp ds1) ds2) ds3), o, polls.
  split.
  - exists ds1, plan, ds2, input, out, ds3. by rewrite Hid.
  - split; [done|]. split; [done|]. by rewrite HasError_app, H3, H4.
Qed.

(** X14.  When CreateOrganization fails, or answers with no output or
    with an output that has no organization id, Create records an error
    (the remote's, or "empty output"), makes no describe call and leaves
    the state as it was. *)
Theorem Create_without_id r conn req resp ds1 plan ds2 input :
  Get (crPlan req) = (ds1, plan) ->
  Expand plan = (ds2, input) ->
  HasError ((Diagnostics resp ++ ds1) ++ ds2) = false ->
  let input' := {| ciAlias := ciAlias input; ciClientToken := Some UniqueId |} in
  let resp' := EnrichAppend (EnrichAppend resp ds1) ds2 in
  (forall out err,
     CreateOrganization conn input' = (out, Some err) ->
     Create r conn req resp =
       (AddError resp' err (tfString_String (Alias plan)),
        [CallCreateOrganization input'])) /\
  (forall out,
     CreateOrganization conn input' = (out, None) ->
     out = None \/ (exists o, out = Some o /\ coOrganizationId o = None) ->
     Create r conn req resp =
       (AddError resp' (ErrorsNew "empty output") (tfString_String (Alias plan)),
        [CallCreateOrganization input'])).
Proof.
  intros Hget Hexp H2 input' resp'.
  assert (HasError (Diagnostics resp ++ ds1) = false) as H1.
  { rewrite HasError_app in H2. by apply orb_false_elim in H2 as [? _]. }
  split.
  - intros out err Hcreate. unfold Create.
    rewrite Hget. simpl. rewrite H1, Hexp. simpl. rewrite H2.
    fold input'. rewrite Hcreate. by destruct out.
  - intros out Hcreate Hout. unfold Create.
    rewrite Hget. simpl. rewrite H1, Hexp. simpl. rewrite H2.
    fold input'. rewrite Hcreate.
    destruct Hout as [->|(o & -> & Hid)]; [done|]. by rewrite Hid.
Qed.

(** X15.  When Create has reached the wait and the wait succeeds, Create
    stores the flattened plan (unless storing it fails), and its remote
    calls are the create call followed by the wait's describe calls for
    the new id. *)
Theorem Create_success r conn req resp plan' resp' out polls :
  createReachesWait conn req resp plan' resp' ->
  waitOrganizationCreated conn (ValueString (ID plan'))
    (CreateTimeout r (Timeouts plan')) = (out, None, polls) ->
  HasError (SetDiagnostics plan') = false ->
  (Create r conn req resp).1 =
    {| Diagnostics := Diagnostics resp' ++ SetDiagnostics plan';
       State := Some plan' |} /\
  HasError (Diagnostics (Create r conn req resp).1) = false /\
  exists input,
    ciClientToken input = Some UniqueId /\
    (Create r conn req resp).2 =
      CallCreateOrganization input :: pollCalls (ValueString (ID plan')) polls.
Proof.
  intros (ds1 & plan & ds2 & input & o & ds3 &
          Hget & Hexp & Hcreate & [oid Hid] & Hflat & -> & Herr) Hwait Hset.
  pose proof Herr as Herr'. simpl in Herr'. rewrite !HasError_app in Herr'.
  apply orb_false_elim in Herr' as [Herr' H3].
  apply orb_false_elim in Herr' as [Herr' H2].
  apply orb_false_elim in Herr' as [H0 H1].
  unfold Create. rewrite Hget. simpl. rewrite HasError_app, H0, H1. simpl.
  rewrite Hexp. simpl. rewrite !HasError_app, H0, H1, H2. simpl.
  rewrite Hcreate, Hid, Hflat. simpl. rewrite !HasError_app, H0, H1, H2, H3. simpl.
  rewrite Hwait. unfold StateSet. simpl. rewrite Hset.
  split; [done|]. split.
  - by rewrite !HasError_app, H0, H1, H2, H3, Hset.
  - by exists {| ciAlias := ciAlias input; ciClientToken := Some UniqueId |}.
Qed.

(** X16.  Whatever happens, Create only adds to the diagnostics, and its
    remote calls are none at all, or one create call carrying the client
    token followed by describe calls only. *)
Theorem Create_frame r conn req resp :
  let out := Create r conn req resp in
  (exists ds, Diagnostics out.1 = (Diagnostics resp ++ ds)%list) /\
  (out.2 = [] \/
   exists input id n,
     ciClientToken input = Some UniqueId /\
     out.2 = CallCreateOrganization input :: pollCalls id n).
Proof.
  unfold Create.
  destruct (Get (crPlan req)) as [ds1 plan]. simpl.
  destruct (HasError (Diagnostics resp ++ ds1)).
  { split; [by exists ds1 | by left]. }
  destruct (Expand plan) as [ds2 input]. simpl.
  destruct (HasError ((Diagnostics resp ++ ds1) ++ ds2)).
  { split; [|by left]. eexists. simpl. by rewrite <- app_assoc. }
  assert (forall (tail : list Call) id n, tail = pollCalls id n ->
     exists input0 id0 n0,
       ciClientToken input0 = Some UniqueId /\
       CallCreateOrganization
         {| ciAlias := ciAlias input; ciClientToken := Some UniqueId |} :: tail =
       CallCreateOrganization input0 :: pollCalls id0 n0) as Hshape.
  { intros tail id n ->.
    by exists {| ciAlias := ciAlias input; ciClientToken := Some UniqueId |}, id, n. }
  destruct (CreateOrganization conn _) as [[out|] [err|]]; simpl;
    try (split; [eexists; by rewrite <- !app_assoc
                | right; by apply (Hshape [] "" 0)]).
  destruct (coOrganizationId out); simpl;
    [|split; [eexists; by rewrite <- !app_assoc | right; by apply (Hshape [] "" 0)]].
  destruct (FlattenCreate out plan) as [ds3 plan']. simpl.
  destruct (HasError _).
  { split; [eexists; simpl; by rewrite <- !app_assoc
           | right; by apply (Hshape [] "" 0)]. }
  destruct (waitOrganizationCreated _ _ _) as [[o err] polls].
  destruct err; simpl;
    (split; [eexists; by rewrite <- !app_assoc
            | right; by apply (Hshape _ (ValueString (ID plan')) polls)]).
Qed.

(** X17.  Read only adds to the diagnostics and makes at most one
    describe call, for the id in the state.  A Read that ends with an
    error among the diagnostics has left the state as it was, and Read
    removes the resource from the state only when the fetch reported
    not-found. *)
Theorem Read_frame r conn req resp :
  let state := (Get (rrState req)).2 in
  let id := ValueString (ID state) in
  let out := Read r conn req resp in
  (exists ds, Diagnostics out.1 = (Diagnostics resp ++ ds)%list) /\
  (out.2 = [] \/ out.2 = [CallDescribeOrganization {| diOrganizationId := Some id |}]) /\
  (HasError (Diagnostics out.1) = true -> State out.1 = State resp) /\
  (State out.1 = None -> State resp = None \/ reportsNotFound conn id 0).
Proof.
  unfold Read. destruct (Get (rrState req)) as [ds state]. simpl.
  destruct (HasError (Diagnostics resp ++ ds)) eqn:H1.
  { simpl. split; [by exists ds|]. split; [by left|]. split; [done|]. by left. }
  destruct (findOrganizationByID conn 0 _) as [out|err] eqn:Hfind.
  - destruct (FlattenDescribe out state) as [ds2 state']. simpl.
    destruct (HasError ((Diagnostics resp ++ ds) ++ ds2)) eqn:H2; simpl.
    + split; [eexists; by rewrite <- app_assoc|]. split; [by right|].
      split; [done|]. by left.
    + split; [eexists; by rewrite <- !app_assoc|]. split; [by right|].
      destruct (HasError (SetDiagnostics state')) eqn:H3.
      * split; [done|]. by left.
      * split; [|done]. by rewrite HasError_app, H2, H3.
  - destruct (NotFound err) eqn:Hnf; simpl.
    + split; [eexists; by rewrite <- app_assoc|]. split; [by right|].
      split.
      * by rewrite HasError_app, H1.
      * intros _. right. by exists err.
    + split; [eexists; by rewrite <- app_assoc|]. split; [by right|].
      split; [done|]. by left.
Qed.

(** X18.  When DescribeOrganization answers Read with a
    ResourceNotFoundException, Read removes the resource from the state
    and adds a warning that carries the remote's error; no error is
    recorded.  This holds however an empty result is classified. *)
Theorem Read_remote_not_found r conn req resp ds state out err :
  Get (rrState req) = (ds, state) ->
  HasError (Diagnostics resp ++ ds) = false ->
  DescribeOrganization conn 0 {| diOrganizationId := Some (ValueString (ID state)) |}
    = (out, Some err) ->
  IsResourceNotFoundException err = true ->
  (Read r conn req resp).1 =
    {| Diagnostics :=
         (Diagnostics resp ++ ds) ++
         [NewResourceNotFoundWarningDiagnostic (Smarterr (NotFoundError (Some err) 0))];
       State := None |}.
Proof.
  intros Hget Hok Hdesc Hnf. unfold Read, findOrganizationByID.
  rewrite Hget. simpl. rewrite Hok, Hdesc. by destruct out; rewrite Hnf.
Qed.

(** X19.  When the fetch of Read fails with an error that is not a
    not-found condition, Read records that error and keeps the resource
    in the state. *)
Theorem Read_fetch_error r conn req resp ds state err :
  Get (rrState req) = (ds, state) ->
  HasError (Diagnostics resp ++ ds) = false ->
  findOrganizationByID conn 0 (ValueString (ID state)) = inr err ->
  NotFound err = false ->
  (Read r conn req resp).1 =
    {| Diagnostics := (Diagnostics resp ++ ds) ++
                      [ErrorDiagnostic err (tfString_String (ID state))];
       State := State resp |}.
Proof.
  intros Hget Hok Hfind Hnf. unfold Read.
  rewrite Hget. simpl. by rewrite Hok, Hfind, Hnf.
Qed.

(** X20.  When the fetch of Read finds the organization and flattening
    and storing raise no error, the state becomes the flattened
    output. *)
Theorem Read_refreshes_state r conn req resp ds state out ds2 state' :
  Get (rrState req) = (ds, state) ->
  findOrganizationByID conn 0 (ValueString (ID state)) = inl out ->
  FlattenDescribe out state = (ds2, state') ->
  HasError ((Diagnostics resp ++ ds) ++ ds2) = false ->
  HasError (SetDiagnostics state') = false ->
  (Read r conn req resp).1 =
    {| Diagnostics := ((Diagnostics resp ++ ds) ++ ds2) ++ SetDiagnostics state';
       State := Some state' |} /\
  is_Some (doOrganizationId out).
Proof.
  intros Hget Hfind Hflat H2 H3.
  assert (HasError (Diagnostics resp ++ ds) = false) as H1.
  { rewrite HasError_app in H2. by apply orb_false_elim in H2 as [? _]. }
  split; [|by apply findOrganizationByID_id in Hfind].
  unfold Read. rewrite Hget. simpl. rewrite H1, Hfind, Hflat. simpl.
  rewrite H2. unfold StateSet. simpl. by rewrite H3.
Qed.

(** ** Import and the acceptance tests' checks *)


(** X22.  The destroy check is decided by the first organization
    resource the range visits: resources of other types before it are
    skipped and the resources after it are never looked at.  It passes
    when that organization is not found, and when there is no
    organization resource at all. *)
Theorem testAccCheckOrganizationDestroy_first conn others :
  Forall (fun rs => rsType rs <> "aws_workmail_organization") others ->
  testAccCheckOrganizationDestroy conn others = CheckPassed /\
  forall rs rest,
    rsType rs = "aws_workmail_organization" ->
    testAccCheckOrganizationDestroy conn (others ++ rs :: rest) =
    match findOrganizationByID conn 0 (rsPrimaryID rs) with
    | inr err =>
        if NotFound err then CheckPassed
        else CheckError ErrActionCheckingDestroyed (rsPrimaryID rs) err
    | inl _ =>
        CheckError ErrActionCheckingDestroyed (rsPrimaryID rs) (ErrorsNew "not destroyed")
    end.
Proof.
  induction 1 as [|other others Hother _ [IH1 IH2]]; simpl.
  - split; [done|]. intros rs rest ->. done.
  - apply String.eqb_neq in Hother. rewrite Hother. simpl.
    split; [done|]. intros rs rest Hrs. by apply IH2.
Qed.


End Resource.

(** ** The schema's plan modifiers *)

(** Claim C9.  The schema marks [alias] as required and as requiring
    replacement, so a planned alias that differs from the one in the
    state of an existing organization is planned as destroy-then-create,
    never as an update in place. *)
Theorem alias_change_forces_replacement (s p : resourceOrganizationModel) :
  tfString_eqb (Alias p) (Alias s) = false ->
  Schema !! "alias" = Some (StringAttribute true false false [RequiresReplace]) /\
  requiresReplace Schema (Some s) (Some p) = ["alias"] /\
  plannedAction Schema (Some s) (Some p) = ActionDeleteThenCreate.
Proof.
  intros Hne.
  assert (requiresReplace Schema (Some s) (Some p) = ["alias"]) as Hreq.
  { unfold requiresReplace.
    set (l := map_to_list Schema). vm_compute in l. subst l.
    cbn. by rewrite Hne. }
  split; [by vm_compute|]. split; [done|].
  unfold plannedAction. by rewrite Hreq.
Qed.

(** ** The operations on the concrete remotes *)

Import Scenario.

Local Abbreviation waitCreated :=
  (waitOrganizationCreated Scenario.emptyResultAsNotFound clock).
Local Abbreviation waitDeleted :=
  (waitOrganizationDeleted Scenario.emptyResultAsNotFound clock).
Local Abbreviation status :=
  (statusOrganization Scenario.emptyResultAsNotFound).
Local Abbreviation notFound :=
  (reportsNotFound Scenario.emptyResultAsNotFound).
Local Abbreviation runCreate :=
  (Create Scenario.emptyResultAsNotFound clock parseDuration uniqueId
          expand flattenCreate setDiagnostics newResourceOrganization).
Local Abbreviation runRead :=
  (Read Scenario.emptyResultAsNotFound flattenDescribe setDiagnostics
        newResourceOrganization).
Local Abbreviation runDelete :=
  (Delete Scenario.emptyResultAsNotFound clock parseDuration uniqueId
          newResourceOrganization).

Local Abbreviation planned block :=
  {| crPlan := {| Get := ([], model "example" block) |} |}.
Local Abbreviation flattened block :=
  {| ARN := StringUnknown; Description := StringValue "some description";
     ID := StringValue Scenario.orgId; Alias := StringValue "example";
     Timeouts := block |}.

Lemma gone_reportsNotFound n : notFound gone Scenario.orgId n.
Proof. by eexists. Qed.

Lemma reaches_wait conn block :
  CreateOrganization conn
    {| ciAlias := Some "example"; ciClientToken := Some uniqueId |} =
    (Some {| coOrganizationId := Some Scenario.orgId |}, None) ->
  createReachesWait uniqueId expand flattenCreate conn (planned block) empty
                    (flattened block) empty.
Proof.
  intros Hcreate. eexists [], _, [], _, _, []. simpl.
  repeat split; done.
Qed.

(** C1 as stated fails: with Active, then a not-found report, then Active
    again, the wait declares success at the third poll although the
    second poll did not observe Active. *)
Lemma waitOrganizationCreated_flicker_succeeds :
  waitCreated flicker Scenario.orgId (10 * Minute)%Z =
    (Some (described statusActive), None, 3) /\
  notFound flicker Scenario.orgId 1 /\
  ~ observes flicker Scenario.orgId 1 statusActive.
Proof.
  split; [by vm_compute|]. split; [by eexists|].
  intros (o & Ho & _). discriminate Ho.
Qed.

Lemma waitOrganizationCreated_debounce_witness :
  waitCreated transient Scenario.orgId (10 * Minute)%Z =
    (Some (described statusActive), None, 5) /\
  (exists j, S j < 5 /\
     observes transient Scenario.orgId j statusActive /\
     observes transient Scenario.orgId (5 - 1) statusActive /\
     forall m, j < m < 5 - 1 -> notFound transient Scenario.orgId m) /\
  (5 <> S 0 /\ 5 <> S (S 0) /\ 5 <> S (S (S 0))).
Proof.
  assert (waitCreated transient Scenario.orgId (10 * Minute)%Z =
          (Some (described statusActive), None, 5)) as Hrun by (by vm_compute).
  split; [exact Hrun|].
  destruct (waitOrganizationCreated_debounce _ _ _ _ _ _ _ Hrun) as [Htwo Hflank].
  split; [exact Htwo|].
  apply (Hflank 0); by eexists.
Defined.

(** C5 as stated fails: when the organization is never found the wait
    ends after the twenty-first report with a [NotFoundError], well
    before the ten minutes are over, and that error is not a timeout. *)
Lemma waitOrganizationCreated_gone_is_not_timeout :
  waitCreated gone Scenario.orgId (10 * Minute)%Z =
    (None, Some (Smarterr (NotFoundError None 21)), 21) /\
  IsTimeoutError (Smarterr (NotFoundError None 21)) = false /\
  21 < clock (10 * Minute)%Z.
Proof. split; [by vm_compute|]. split; [done|]. vm_compute. lia. Qed.

Lemma waitOrganizationCreated_notfound_threshold_witness :
  retry.polling (createdStateConf (10 * Minute)%Z) (status gone Scenario.orgId) 0
    = Some retry.start /\
  retry.polling (createdStateConf (10 * Minute)%Z) (status gone Scenario.orgId) (0 + 20)
    = Some {| retry.notfoundTick := 20; retry.targetOccurence := 0 |} /\
  waitCreated gone Scenario.orgId (10 * Minute)%Z =
    (None, Some (Smarterr (NotFoundError None 21)), 0 + 21).
Proof.
  destruct (waitOrganizationCreated_notfound_threshold
              Scenario.emptyResultAsNotFound clock gone Scenario.orgId
              (10 * Minute)%Z 0 retry.start eq_refl eq_refl) as [Htol Hfail].
  split; [done|]. split.
  - apply (Htol 20); [lia|]. intros j _. apply gone_reportsNotFound.
  - apply Hfail; [intros j _; apply gone_reportsNotFound | vm_compute; lia].
Defined.

(** C2 at the failing input: the organization is gone and every describe
    reports not found.  The deletion wait does not succeed: it polls
    twenty-one times and fails, and Delete records the error. *)
Theorem Delete_gone_reports_error :
  waitDeleted gone Scenario.orgId (10 * Minute)%Z =
    (None, Some (Smarterr (NotFoundError None 21)), 21) /\
  (runDelete gone {| drState := {| Get := ([], managed "example") |} |} empty).1 =
    {| Diagnostics :=
         [ErrorDiagnostic (Smarterr (NotFoundError None 21))
                          (tfString_String (StringValue Scenario.orgId))];
       State := None |}.
Proof. split; by vm_compute. Qed.

Lemma wait_aborts_on_fetch_error_witness :
  findOrganizationByID throttled 1 Scenario.orgId =
    inr (Smarterr (APIError "ThrottlingException" "rate exceeded")) /\
  waitCreated throttled Scenario.orgId (10 * Minute)%Z =
    (None,
     Some (Smarterr (Smarterr (Smarterr (APIError "ThrottlingException" "rate exceeded")))),
     2) /\
  waitDeleted throttledDeleting Scenario.orgId (10 * Minute)%Z =
    (None,
     Some (Smarterr (Smarterr (Smarterr (APIError "ThrottlingException" "rate exceeded")))),
     2).
Proof.
  split; [done|]. split.
  - refine (proj1 (wait_aborts_on_fetch_error Scenario.emptyResultAsNotFound clock
                     throttled Scenario.orgId (10 * Minute)%Z 1 _ eq_refl eq_refl _)
                  retry.start eq_refl).
    vm_compute. lia.
  - refine (proj2 (wait_aborts_on_fetch_error Scenario.emptyResultAsNotFound clock
                     throttledDeleting Scenario.orgId (10 * Minute)%Z 1 _ eq_refl eq_refl _)
                  retry.start eq_refl).
    vm_compute. lia.
Defined.

Lemma deleting_wait_example :
  (waitDeleted deleting Scenario.orgId (10 * Minute)%Z) = (None, None, 3).
Proof. by vm_compute. Qed.

Lemma Create_timeout_commits_nothing_witness :
  createReachesWait uniqueId expand flattenCreate stuck
    (planned {[ "create" := StringValue "30s" ]}) empty
    (flattened {[ "create" := StringValue "30s" ]}) empty /\
  (exists ls,
     waitCreated stuck Scenario.orgId (30 * Second)%Z =
     (None, Some (Smarterr (TimeoutError None ls (30 * Second)%Z [statusActive])), 3)) /\
  State (runCreate stuck (planned {[ "create" := StringValue "30s" ]}) empty).1 = None /\
  HasError (Diagnostics
              (runCreate stuck (planned {[ "create" := StringValue "30s" ]}) empty).1) = true.
Proof.
  assert (createReachesWait uniqueId expand flattenCreate stuck
            (planned {[ "create" := StringValue "30s" ]}) empty
            (flattened {[ "create" := StringValue "30s" ]}) empty) as Hreach
    by (by apply reaches_wait).
  split; [exact Hreach|].
  apply (Create_timeout_commits_nothing Scenario.emptyResultAsNotFound clock
           parseDuration uniqueId expand flattenCreate setDiagnostics
           newResourceOrganization stuck _ empty _ empty Hreach).
  intros n _. by eexists.
Defined.

Lemma Delete_not_found_is_success_witness :
  runDelete unknown {| drState := {| Get := ([], managed "example") |} |} empty =
    (empty,
     [CallDeleteOrganization {| xiOrganizationId := Some Scenario.orgId;
                                xiClientToken := Some uniqueId |}]) /\
  HasError (Diagnostics
    (runDelete unknown {| drState := {| Get := ([], managed "example") |} |} empty).1) = false.
Proof.
  exact (Delete_not_found_is_success Scenario.emptyResultAsNotFound clock
           parseDuration uniqueId newResourceOrganization unknown
           {| drState := {| Get := ([], managed "example") |} |} empty
           [] (managed "example") None
           (ResourceNotFoundException "organization not found")
           eq_refl eq_refl eq_refl eq_refl).
Defined.

Lemma Read_not_found_removes_witness :
  (runRead gone {| rrState := {| Get := ([], managed "example") |} |}
        {| Diagnostics := []; State := Some (managed "example") |}).1 =
    {| Diagnostics :=
         [NewResourceNotFoundWarningDiagnostic
            (Smarterr (NotFoundError
                         (Some (ResourceNotFoundException "organization not found")) 0))];
       State := None |} /\
  HasError (Diagnostics
    (runRead gone {| rrState := {| Get := ([], managed "example") |} |}
          {| Diagnostics := []; State := Some (managed "example") |}).1) = false.
Proof.
  exact (Read_not_found_removes Scenario.emptyResultAsNotFound flattenDescribe
           setDiagnostics newResourceOrganization gone
           {| rrState := {| Get := ([], managed "example") |} |}
           {| Diagnostics := []; State := Some (managed "example") |}
           [] (managed "example") _ eq_refl eq_refl eq_refl eq_refl).
Defined.

(** C3 as stated fails: a timeouts block that sets the update phase is
    refused, the schema's block declaring the create phase alone. *)
Lemma update_timeout_is_refused :
  parseDuration "5m" = Some (5 * Minute)%Z /\
  timeoutsAccepted Schema {[ "update" := StringValue "5m" ]} = false /\
  timeoutsAccepted Schema {[ "create" := StringValue "5m" ]} = true.
Proof. repeat split; by vm_compute. Qed.

Lemma create_timeout_is_configurable_witness :
  parseDuration "30s" = Some (30 * Second)%Z /\
  timeoutsAccepted Schema {[ "create" := StringValue "30s" ]} = true /\
  CreateTimeout parseDuration newResourceOrganization
                {[ "create" := StringValue "30s" ]} = (30 * Second)%Z /\
  length (runCreate stuck (planned {[ "create" := StringValue "30s" ]}) empty).2 =
    S (waitCreated stuck Scenario.orgId (30 * Second)%Z).2.
Proof.
  destruct (create_timeout_is_configurable Scenario.emptyResultAsNotFound clock
              parseDuration uniqueId expand flattenCreate setDiagnostics
              "30s" (30 * Second)%Z eq_refl) as [Hacc Huse].
  split; [done|]. split; [exact Hacc|].
  destruct (Huse newResourceOrganization stuck
                 (planned {[ "create" := StringValue "30s" ]}) empty
                 (flattened {[ "create" := StringValue "30s" ]}) empty
                 (reaches_wait stuck _ eq_refl) ltac:(by vm_compute))
    as (Hd & _ & Hlen).
  split; [exact Hd | exact Hlen].
Defined.

Lemma alias_change_forces_replacement_witness :
  tfString_eqb (Alias (managed "renamed")) (Alias (managed "example")) = false /\
  plannedAction Schema (Some (managed "example")) (Some (managed "renamed")) =
    ActionDeleteThenCreate.
Proof.
  split; [done|].
  apply (alias_change_forces_replacement (managed "example") (managed "renamed")).
  reflexivity.
Defined.

(** ** More about the schema and the sweeper *)





Lemma sweepPages_serves api pages :
  forall fuel firstPage nextToken acc,
    serves api nextToken pages ->
    HasMorePages firstPage nextToken = true ->
    length pages <= fuel ->
    sweepPages api fuel firstPage nextToken acc =
    Some ((acc ++ flat_map (fun page => map NewSweepResource
                                            (loOrganizationSummaries page)) pages)%list,
          None).
Proof.
  induction pages as [|page rest IH]; intros fuel firstPage nextToken acc Hs Hmore Hlen;
    [done|].
  destruct fuel as [|fuel]; [simpl in Hlen; lia|].
  cbn [serves] in Hs. destruct Hs as [Hpage Hrest].
  cbn [sweepPages]. rewrite Hmore, Hpage.
  destruct rest as [|page' rest'].
  - destruct fuel; cbn [sweepPages]; rewrite Hrest; simpl; by rewrite app_nil_r.
  - destruct Hrest as [Hmore' Hs'].
    rewrite (IH fuel false (loNextToken page) _ Hs' Hmore'); [|simpl in *; lia].
    cbn [flat_map]. by rewrite <- app_assoc.
Qed.

(** X26.  When the remote serves a finite run of pages, ended by a page
    with a nil or empty next token, the sweeper returns one resource per
    organization summary, in page order, each identified by the
    summary's id (the empty string for a nil id). *)
Theorem sweepOrganizations_lists_all api pages fuel :
  serves api None pages ->
  length pages <= fuel ->
  sweepOrganizations api fuel =
  Some (flat_map (fun page => map NewSweepResource (loOrganizationSummaries page)) pages,
        None).
Proof.
  intros Hs Hlen. unfold sweepOrganizations.
  by rewrite (sweepPages_serves api pages fuel true None [] Hs eq_refl Hlen).
Qed.

(** ** The further properties on the concrete remotes *)

Local Abbreviation managedState := {| Get := ([], managed "example") |}.
Local Abbreviation deleteInput :=
  {| xiOrganizationId := Some Scenario.orgId; xiClientToken := Some uniqueId |}.
Local Abbreviation describeCall :=
  (CallDescribeOrganization {| diOrganizationId := Some Scenario.orgId |}).
Local Abbreviation throttling := (APIError "ThrottlingException" "rate exceeded").

Lemma findOrganizationByID_found_witness :
  DescribeOrganization stuck 0 {| diOrganizationId := Some Scenario.orgId |} =
    (Some (described statusCreating), None) /\
  findOrganizationByID stuck 0 Scenario.orgId = inl (described statusCreating).
Proof.
  split; [done|].
  apply (findOrganizationByID_found stuck 0 Scenario.orgId (described statusCreating)).
  split; [reflexivity | by eexists].
Defined.

Lemma waitOrganizationCreated_success_output_witness :
  waitCreated transient Scenario.orgId (10 * Minute)%Z =
    (Some (described statusActive), None, 5) /\
  exists o,
    Some (described statusActive) = Some o /\ 2 <= 5 /\
    findOrganizationByID transient (5 - 1) Scenario.orgId = inl o /\
    ToString (doState o) = statusActive /\ is_Some (doOrganizationId o).
Proof.
  assert (waitCreated transient Scenario.orgId (10 * Minute)%Z =
          (Some (described statusActive), None, 5)) as Hrun by (by vm_compute).
  split; [exact Hrun|].
  exact (waitOrganizationCreated_success_output _ _ _ _ _ _ _ Hrun).
Defined.

Lemma waitOrganizationCreated_two_Active_witness :
  retry.polling (createdStateConf (10 * Minute)%Z) (status Cases.settling Scenario.orgId) 2
    = Some retry.start /\
  waitCreated Cases.settling Scenario.orgId (10 * Minute)%Z =
    (Some (described statusActive), None, 4).
Proof.
  split; [done|].
  apply (waitOrganizationCreated_two_Active Scenario.emptyResultAsNotFound clock
           Cases.settling Scenario.orgId (10 * Minute)%Z 2 retry.start
           (described statusActive) (described statusActive));
    try reflexivity.
  vm_compute. lia.
Defined.

Lemma waitOrganizationCreated_unexpected_state_witness :
  findOrganizationByID Cases.requested 1 Scenario.orgId = inl (described "Requested") /\
  waitCreated Cases.requested Scenario.orgId (10 * Minute)%Z =
    (Some (described "Requested"),
     Some (Smarterr (UnexpectedStateError "Requested" [statusActive])), 2).
Proof.
  split; [done|].
  apply (waitOrganizationCreated_unexpected_state Scenario.emptyResultAsNotFound clock
           Cases.requested Scenario.orgId (10 * Minute)%Z 1 retry.start
           (described "Requested")); try reflexivity; try done.
  vm_compute. lia.
Defined.

Lemma found_resets_notfound_count_witness :
  retry.polling (createdStateConf (10 * Minute)%Z) (status Cases.settling Scenario.orgId) 1
    = Some {| retry.notfoundTick := 1; retry.targetOccurence := 0 |} /\
  retry.polling (createdStateConf (10 * Minute)%Z) (status Cases.settling Scenario.orgId) 2
    = Some retry.start /\
  retry.notfoundTick retry.start = 0.
Proof.
  split; [done|]. split; [done|].
  exact (proj1 (found_resets_notfound_count Scenario.emptyResultAsNotFound
                  Cases.settling Scenario.orgId (10 * Minute)%Z 1 retry.start
                  (described statusCreating) eq_refl) eq_refl).
Defined.

Lemma waitOrganizationDeleted_success_witness :
  waitDeleted deleting Scenario.orgId (10 * Minute)%Z = (None, None, 3) /\
  observes deleting Scenario.orgId (3 - 1) statusDeleted.
Proof.
  assert (waitDeleted deleting Scenario.orgId (10 * Minute)%Z = (None, None, 3))
    as Hrun by (by vm_compute).
  split; [exact Hrun|].
  by destruct (waitOrganizationDeleted_success _ _ _ _ _ _ _ Hrun) as (_ & _ & ? & _).
Defined.

Lemma waitOrganizationDeleted_unexpected_state_witness :
  findOrganizationByID stuck 0 Scenario.orgId = inl (described statusCreating) /\
  waitDeleted stuck Scenario.orgId (10 * Minute)%Z =
    (None, Some (Smarterr (UnexpectedStateError statusCreating [statusDeleted])), 1).
Proof.
  split; [done|].
  apply (waitOrganizationDeleted_unexpected_state Scenario.emptyResultAsNotFound clock
           stuck Scenario.orgId (10 * Minute)%Z 0 retry.start
           (described statusCreating)); try reflexivity; try done.
  vm_compute. lia.
Defined.

Lemma Delete_timeout_witness :
  DeleteOrganization Cases.lingering deleteInput =
    (Some {| xoOrganizationId := Some Scenario.orgId; xoState := Some statusDeleting |}, None) /\
  exists ls,
    runDelete Cases.lingering {| drState := managedState |} empty =
      (AddError empty
         (Smarterr (TimeoutError None ls (10 * Minute)%Z [statusDeleted]))
         (tfString_String (StringValue Scenario.orgId)),
       CallDeleteOrganization deleteInput :: pollCalls Scenario.orgId 60).
Proof.
  split; [done|].
  apply (Delete_timeout Scenario.emptyResultAsNotFound clock parseDuration uniqueId
           newResourceOrganization Cases.lingering {| drState := managedState |} empty
           [] (managed "example") _ eq_refl eq_refl eq_refl).
  intros n _. left. by eexists.
Defined.

Lemma Delete_success_witness :
  observes deleting Scenario.orgId 2 statusDeleted /\
  runDelete deleting {| drState := managedState |} empty =
    (empty, [CallDeleteOrganization deleteInput; describeCall; describeCall; describeCall]).
Proof.
  assert (observes deleting Scenario.orgId 2 statusDeleted) as Hobs by (by eexists).
  split; [exact Hobs|].
  apply (Delete_success Scenario.emptyResultAsNotFound clock parseDuration uniqueId
           newResourceOrganization deleting {| drState := managedState |} empty
           [] (managed "example") _ 2 retry.start eq_refl eq_refl eq_refl eq_refl);
    [vm_compute; lia | exact Hobs].
Defined.

Lemma Delete_api_error_witness :
  IsResourceNotFoundException (APIError "OrganizationStateException" "not active") = false /\
  runDelete Cases.refusing {| drState := managedState |} empty =
    (AddError empty (APIError "OrganizationStateException" "not active")
              (tfString_String (StringValue Scenario.orgId)),
     [CallDeleteOrganization deleteInput]).
Proof.
  split; [done|].
  exact (Delete_api_error Scenario.emptyResultAsNotFound clock parseDuration uniqueId
           newResourceOrganization Cases.refusing {| drState := managedState |} empty
           [] (managed "example") None _ eq_refl eq_refl eq_refl eq_refl).
Defined.

Lemma Create_writes_state_only_after_success_witness :
  State (runCreate transient (planned ∅) empty).1 = Some (flattened ∅) /\
  exists plan' resp' out polls,
    createReachesWait uniqueId expand flattenCreate transient (planned ∅) empty
                      plan' resp' /\
    waitCreated transient (ValueString (ID plan'))
      (CreateTimeout parseDuration newResourceOrganization (Timeouts plan')) =
      (out, None, polls) /\
    State (runCreate transient (planned ∅) empty).1 = Some plan' /\
    HasError (Diagnostics (runCreate transient (planned ∅) empty).1) = false.
Proof.
  assert (State (runCreate transient (planned ∅) empty).1 = Some (flattened ∅))
    as Hstate by (by vm_compute).
  split; [exact Hstate|].
  apply Create_writes_state_only_after_success.
  rewrite Hstate. discriminate.
Defined.

Lemma Create_without_id_witness :
  runCreate Cases.refusing (planned ∅) empty =
    (AddError empty (APIError "LimitExceededException" "too many organizations")
              (tfString_String (StringValue "example")),
     [CallCreateOrganization {| ciAlias := Some "example";
                                ciClientToken := Some uniqueId |}]) /\
  runCreate Cases.forgetful (planned ∅) empty =
    (AddError empty (ErrorsNew "empty output") (tfString_String (StringValue "example")),
     [CallCreateOrganization {| ciAlias := Some "example";
                                ciClientToken := Some uniqueId |}]).
Proof.
  split.
  - exact (proj1 (Create_without_id Scenario.emptyResultAsNotFound clock parseDuration
                    uniqueId expand flattenCreate setDiagnostics newResourceOrganization
                    Cases.refusing (planned ∅) empty [] _ [] _ eq_refl eq_refl eq_refl)
                 None _ eq_refl).
  - refine (proj2 (Create_without_id Scenario.emptyResultAsNotFound clock parseDuration
                     uniqueId expand flattenCreate setDiagnostics newResourceOrganization
                     Cases.forgetful (planned ∅) empty [] _ [] _ eq_refl eq_refl eq_refl)
                  _ eq_refl _).
    right. by eexists.
Defined.

Lemma Create_success_witness :
  waitCreated transient Scenario.orgId (10 * Minute)%Z =
    (Some (described statusActive), None, 5) /\
  (runCreate transient (planned ∅) empty).1 =
    {| Diagnostics := []; State := Some (flattened ∅) |} /\
  length (runCreate transient (planned ∅) empty).2 = 6.
Proof.
  assert (waitCreated transient Scenario.orgId (10 * Minute)%Z =
          (Some (described statusActive), None, 5)) as Hrun by (by vm_compute).
  split; [exact Hrun|].
  assert (waitCreated transient (ValueString (ID (flattened ∅)))
            (CreateTimeout parseDuration newResourceOrganization
                           (Timeouts (flattened ∅))) =
          (Some (described statusActive), None, 5)) as Hrun' by (by vm_compute).
  destruct (Create_success Scenario.emptyResultAsNotFound clock parseDuration uniqueId
              expand flattenCreate setDiagnostics newResourceOrganization transient
              (planned ∅) empty (flattened ∅) empty _ 5
              (reaches_wait transient ∅ eq_refl) Hrun' eq_refl)
    as (Hresp & _ & input & _ & Hcalls).
  split; [exact Hresp|]. by rewrite Hcalls.
Defined.

Lemma Read_remote_not_found_witness :
  DescribeOrganization gone 0 {| diOrganizationId := Some Scenario.orgId |} = absent /\
  (runRead gone {| rrState := managedState |}
           {| Diagnostics := []; State := Some (managed "example") |}).1 =
    {| Diagnostics :=
         [NewResourceNotFoundWarningDiagnostic
            (Smarterr (NotFoundError
                         (Some (ResourceNotFoundException "organization not found")) 0))];
       State := None |}.
Proof.
  split; [done|].
  exact (Read_remote_not_found Scenario.emptyResultAsNotFound flattenDescribe
           setDiagnostics newResourceOrganization gone {| rrState := managedState |}
           {| Diagnostics := []; State := Some (managed "example") |}
           [] (managed "example") None _ eq_refl eq_refl eq_refl eq_refl).
Defined.

Lemma Read_fetch_error_witness :
  findOrganizationByID Cases.unreachable 0 Scenario.orgId = inr (Smarterr throttling) /\
  (runRead Cases.unreachable {| rrState := managedState |}
           {| Diagnostics := []; State := Some (managed "example") |}).1 =
    {| Diagnostics := [ErrorDiagnostic (Smarterr throttling)
                                       (tfString_String (StringValue Scenario.orgId))];
       State := Some (managed "example") |}.
Proof.
  split; [done|].
  exact (Read_fetch_error Scenario.emptyResultAsNotFound flattenDescribe
           setDiagnostics newResourceOrganization Cases.unreachable
           {| rrState := managedState |}
           {| Diagnostics := []; State := Some (managed "example") |}
           [] (managed "example") _ eq_refl eq_refl eq_refl eq_refl).
Defined.

Lemma Read_refreshes_state_witness :
  findOrganizationByID stuck 0 Scenario.orgId = inl (described statusCreating) /\
  State (runRead stuck {| rrState := managedState |}
                 {| Diagnostics := []; State := Some (managed "renamed") |}).1 =
    Some (managed "example").
Proof.
  split; [done|].
  destruct (Read_refreshes_state Scenario.emptyResultAsNotFound flattenDescribe
              setDiagnostics newResourceOrganization stuck {| rrState := managedState |}
              {| Diagnostics := []; State := Some (managed "renamed") |}
              [] (managed "example") (described statusCreating) [] _
              eq_refl eq_refl eq_refl eq_refl eq_refl) as [-> _].
  reflexivity.
Defined.


Lemma testAccCheckOrganizationDestroy_first_witness :
  findOrganizationByID Cases.halfSwept 0 "m-live" = inl (described statusActive) /\
  testAccCheckOrganizationDestroy Scenario.emptyResultAsNotFound Cases.halfSwept
    Cases.resources = CheckPassed.
Proof.
  split; [done|].
  refine (proj2 (testAccCheckOrganizationDestroy_first Scenario.emptyResultAsNotFound
                   Cases.halfSwept
                   [{| rsType := "aws_iam_role"; rsPrimaryID := "role" |}] _)
                {| rsType := "aws_workmail_organization"; rsPrimaryID := "m-gone" |}
                [{| rsType := "aws_workmail_organization"; rsPrimaryID := "m-live" |}]
                eq_refl).
  by repeat constructor.
Defined.


Lemma sweepOrganizations_lists_all_witness :
  sweepOrganizations Cases.twoPages 2 =
    Some ([{| srFactory := newResourceOrganization; srAttributes := [("id", "m-1")] |};
           {| srFactory := newResourceOrganization; srAttributes := [("id", "m-2")] |};
           {| srFactory := newResourceOrganization; srAttributes := [("id", "")] |}],
          None).
Proof.
  refine (sweepOrganizations_lists_all Cases.twoPages
            [{| loNextToken := Some "page-2";
                loOrganizationSummaries := [Cases.summary "m-1"; Cases.summary "m-2"] |};
             {| loNextToken := None;
                loOrganizationSummaries :=
                  [{| osAlias := None; osOrganizationId := None; osState := None |}] |}]
            2 _ _).
  - by repeat split.
  - simpl. lia.
Defined.

Lemma delete_timeout_is_default_witness :
  timeoutsAccepted Schema {[ "create" := StringValue "5m" ]} = true /\
  DeleteTimeout parseDuration newResourceOrganization {[ "create" := StringValue "5m" ]}
    = (10 * Minute)%Z.
Proof.
  assert (timeoutsAccepted Schema {[ "create" := StringValue "5m" ]} = true)
    as Hacc by (by vm_compute).
  split; [exact Hacc|].
  exact (delete_timeout_is_default parseDuration newResourceOrganization _ Hacc).
Defined.
